(** * axys-mcp-lite: the HTTP/stdio MCP gateway (dist/index.js and its
      sibling entry points), embedded shallowly.

    The development follows the source file by file:
    - [Js]        the fragment of JavaScript values the handlers inspect
                  (truthiness, property reads, [String(v)]) and what a
                  [throw] can carry;
    - [Client]    [isValidUrl], [getMcpClient], [parseConfigFromQuery] and
                  the environment-driven construction of the default client;
    - [Dispatch]  the [CallToolRequestSchema] handler of [createMcpServer]
                  and [GptMcpClient.validateConnection];
    - [ZodServer] the [registerTool] variant of src/index.ts;
    - [Mux]       the session table of [startHttpServer]: POST/GET/DELETE
                  on /mcp, the [onclose] callback and the SIGINT handler;
    - [Registry]  the [TOOLS] table and the [ListToolsRequestSchema] handler;
    - [Axios]     the response interceptor of [GptMcpClient];
    - [Entry]     [STDIO_MODE] and [main];
    - [Smithery]  the single-tenant factory of src/smithery-index.ts;
    - [ZodTools]  the rest of the [registerTool] variant;
    - [StoreInv]  the invariants of the client store;
    - [Sample], [Demo]  concrete environments for the closed examples.

    A template literal converts its operands with [String]; the
    conversion of an object that has an own [toString] property throws,
    and the definitions below follow every place where that can happen.

    The event loop is single-threaded and the table is only touched inside
    callbacks, so each request is modelled as one atomic step. *)

From stdpp Require Import gmap strings list pretty.
From Stdlib Require Import ZArith String Ascii Lia.

Local Open Scope string_scope.
Local Open Scope Z_scope.

(* ===================================================================== *)
(** ** JavaScript values *)
(* ===================================================================== *)

Module Js.

(** [Number.MAX_SAFE_INTEGER]: up to this magnitude an integer is a
    number of its own and prints as its decimal digits. *)
Definition MAX_SAFE_INTEGER : Z := 9007199254740991.

(** JSON-shaped values plus [undefined].  An object is kept as the list of
    its own properties.  A number is either a safe integer, or any other
    finite number (a fraction, a larger magnitude), which is never zero
    and is carried by the text [String] gives for it. *)
#[warnings="-register-all"]
Inductive JsVal : Type :=
| JUndefined
| JNull
| JBool (b : bool)
| JNum (n : Z) (safe : Z.abs n ≤ MAX_SAFE_INTEGER)
| JNumOther (text : string)
| JStr (s : string)
| JArr (xs : list JsVal)
| JObj (fields : list (string * JsVal)).

(** [!!v] *)
Definition truthy (v : JsVal) : bool :=
  match v with
  | JUndefined | JNull => false
  | JBool b => b
  | JNum n _ => negb (n =? 0)
  | JNumOther _ => true
  | JStr s => negb (String.eqb s "")
  | JArr _ | JObj _ => true
  end.

Fixpoint assoc (k : string) (fs : list (string * JsVal)) : JsVal :=
  match fs with
  | [] => JUndefined
  | (k', v) :: rest => if String.eqb k k' then v else assoc k rest
  end.

(** [v?.k], and [v.k] for a [v] already known to be truthy: a read of a
    property that a primitive or an array does not have yields
    [undefined]. *)
Definition get (v : JsVal) (k : string) : JsVal :=
  match v with
  | JObj fs => assoc k fs
  | _ => JUndefined
  end.

(** Whether the object has an own property [k]. *)
Definition has_own (k : string) (fs : list (string * JsVal)) : bool :=
  existsb (fun kv => String.eqb k kv.1) fs.

(** [String(v)], as used by template literals: [None] when the
    conversion throws a [TypeError].  An object converts through its
    [toString]; an own [toString] property holds a JSON value, which
    cannot be called, and the inherited [valueOf] hands the object back,
    so such an object has no string form.  Without it the inherited
    [toString] answers. *)
Fixpoint to_string (v : JsVal) : option string :=
  match v with
  | JUndefined => Some "undefined"
  | JNull => Some "null"
  | JBool true => Some "true"
  | JBool false => Some "false"
  | JNum n _ => Some (pretty n)
  | JNumOther text => Some text
  | JStr s => Some s
  | JArr xs =>
      (fix join (l : list JsVal) : option string :=
         match l with
         | [] => Some ""
         | x :: rest =>
             match (match x with
                    | JUndefined | JNull => Some ""
                    | _ => to_string x
                    end) with
             | None => None
             | Some here =>
                 match rest with
                 | [] => Some here
                 | _ =>
                     match join rest with
                     | None => None
                     | Some tail => Some (here ++ "," ++ tail)
                     end
                 end
             end
         end) xs
  | JObj fs => if has_own "toString" fs then None else Some "[object Object]"
  end.

(** An environment variable or a header: [undefined] when unset. *)
Definition of_option (o : option string) : JsVal :=
  match o with
  | Some s => JStr s
  | None => JUndefined
  end.

(** [ErrorCode] of the MCP SDK, the three members the gateway uses. *)
Inductive ErrorCode : Type := InvalidParams | MethodNotFound | InternalError.

Definition error_code_number (c : ErrorCode) : Z :=
  match c with
  | InvalidParams => -32602
  | MethodNotFound => -32601
  | InternalError => -32603
  end.

(** What a [throw] can carry.  [McpError code message] records the two
    arguments of [new McpError(code, message)]. *)
Inductive Thrown : Type :=
| McpError (code : ErrorCode) (message : string)
| JsError (message : string)   (* an [Error] that is not an [McpError] *)
| Raised (v : JsVal).          (* a thrown value that is not an [Error] *)

(** The [TypeError] of a failed [String(v)]. *)
Definition not_primitive : Thrown :=
  JsError "Cannot convert object to primitive value".

End Js.
Export Js.

(* ===================================================================== *)
(** ** The upstream client and its configuration *)
(* ===================================================================== *)

Module Client.

(** [new GptMcpClient({host, mcpKey})]: the two constructor arguments are
    all the gateway ever decides about a client. *)
Record GptMcpClient : Type := mkClient {
  host : JsVal;
  mcpKey : JsVal
}.

Definition DEFAULT_API_HOST : string := "https://directory.axys.ai".

Section WithUrlParser.

(** [new URL(s)] of the WHATWG parser: [true] when it returns, [false]
    when it throws. *)
Variable url_parses : string → bool.

(** [isValidUrl]: a non-string argument either makes [new URL] throw or
    survives it and then has no [startsWith] method; both land in the
    [catch]. *)
Definition isValidUrl (url : JsVal) : bool :=
  if negb (truthy url) then false
  else match url with
       | JStr s =>
           if url_parses s
           then String.prefix "http://" s || String.prefix "https://" s
           else false
       | _ => false
       end.

(** What the spec calls a host that passes URL validation: a string the
    URL parser accepts and that starts with http:// or https://. *)
Definition valid_http_url (v : JsVal) : Prop :=
  ∃ s, v = JStr s ∧ url_parses s = true
       ∧ (String.prefix "http://" s = true ∨ String.prefix "https://" s = true).

(** The module-level [mcpClients] map and [defaultMcpClient]. *)
Record ClientStore : Type := mkStore {
  mcpClients : gmap string GptMcpClient;
  defaultMcpClient : option GptMcpClient
}.

(** The template literal [`${apiHost}:${config.MCP_KEY}`]: [None] when a
    conversion throws. *)
Definition configKey (apiHost key : JsVal) : option string :=
  match to_string apiHost with
  | None => None
  | Some h =>
      match to_string key with
      | None => None
      | Some k => Some (h ++ ":" ++ k)
      end
  end.

(** [getMcpClient(config)]: the client handed back, or what the call
    throws, and the store after the call.  The only statement that can
    throw is the template literal, which comes before the cache is
    touched. *)
Definition getMcpClient (config : JsVal) (st : ClientStore)
  : (Thrown + option GptMcpClient) * ClientStore :=
  if truthy config && truthy (get config "MCP_KEY") then
    let apiHost :=
      if isValidUrl (get config "AXYS_API_HOST")
      then get config "AXYS_API_HOST"
      else JStr DEFAULT_API_HOST in
    match configKey apiHost (get config "MCP_KEY") with
    | None => (inl not_primitive, st)
    | Some key =>
        let cache :=
          match mcpClients st !! key with
          | Some _ => mcpClients st
          | None =>
              <[key := mkClient apiHost (get config "MCP_KEY")]> (mcpClients st)
          end in
        (inr (cache !! key), mkStore cache (defaultMcpClient st))
    end
  else (inr (defaultMcpClient st), st).

(** [decodeURIComponent] followed by [JSON.parse]: [None] when either
    throws. *)
Variable parse_json : string → option JsVal.

(** [parseConfigFromQuery(req)], on [req.query]: the configuration, or
    what the function throws.  Both branches log the host through a
    template literal.  In the first branch nothing catches a failed
    conversion; in the second the [try] around [JSON.parse] does, and
    the function falls through to [return undefined]. *)
Definition parseConfigFromQuery (query : JsVal) : Thrown + JsVal :=
  if truthy (get query "MCP_KEY") || truthy (get query "AXYS_API_HOST") then
    match to_string (get query "AXYS_API_HOST") with
    | None => inl not_primitive
    | Some _ =>
        inr (JObj [("AXYS_API_HOST", get query "AXYS_API_HOST");
                   ("MCP_KEY", get query "MCP_KEY")])
    end
  else
    match get query "config" with
    | JStr configParam =>
        if truthy (JStr configParam) then
          match parse_json configParam with
          | Some JNull | Some JUndefined =>
              inr JUndefined (* the log line reads a property of null *)
          | Some config =>
              match to_string (get config "AXYS_API_HOST") with
              | None => inr JUndefined (* the log line throws into the catch *)
              | Some _ => inr config
              end
          | None => inr JUndefined
          end
        else inr JUndefined
    | _ => inr JUndefined
    end.

(** The process environment the entry points read. *)
Record Env : Type := mkEnv {
  AXYS_API_HOST : option string;
  MCP_KEY : option string
}.

(** [startHttpServer], up to the initialisation of [defaultMcpClient]. *)
Definition startHttpServer_client (env : Env) : option GptMcpClient :=
  let envApiHost := of_option (AXYS_API_HOST env) in
  let API_HOST := if isValidUrl envApiHost then envApiHost
                  else JStr DEFAULT_API_HOST in
  let key := if truthy (of_option (MCP_KEY env)) then of_option (MCP_KEY env)
             else JStr "" in
  if truthy key then Some (mkClient API_HOST key) else None.

(** [startStdioServer], up to the initialisation of [defaultMcpClient]:
    [inl 1] is [process.exit(1)]. *)
Definition startStdioServer_client (env : Env) : Z + GptMcpClient :=
  let envApiHost := of_option (AXYS_API_HOST env) in
  let API_HOST := if isValidUrl envApiHost then envApiHost
                  else JStr DEFAULT_API_HOST in
  let key := of_option (MCP_KEY env) in
  if negb (truthy key) then inl 1 else inr (mkClient API_HOST key).

End WithUrlParser.

End Client.
Export Client.

(* ===================================================================== *)
(** ** Tool dispatch: the [CallToolRequestSchema] handler *)
(* ===================================================================== *)

Module Dispatch.

Inductive SearchType : Type := structured | unstructured.

(** [GptSearchRequest]: an optional property is [None] when the object
    does not have it. *)
Record GptSearchRequest : Type := mkRequest {
  query : JsVal;
  searchType : SearchType;
  searchIndices : option JsVal;
  fileOnly : option JsVal
}.

(** [{ content: [{ type: "text", text }] }] *)
Inductive ToolResult : Type := TextContent (text : string).

(** A handler run: the upstream requests it issued, in order, and either
    the value it returned or what it threw. *)
Record Run (A : Type) : Type := mkRun {
  calls : list GptSearchRequest;
  result : Thrown + A
}.
Arguments mkRun {A} _ _.
Arguments calls {A} _.
Arguments result {A} _.

Definition ret {A} (a : A) : Run A := mkRun [] (inr a).
Definition throw {A} (e : Thrown) : Run A := mkRun [] (inl e).
Definition bind {A B} (k : A → Run B) (m : Run A) : Run B :=
  match result m with
  | inl e => mkRun (calls m) (inl e)
  | inr a => mkRun (calls m ++ calls (k a)) (result (k a))
  end.
#[export] Instance run_ret : MRet Run := @ret.
#[export] Instance run_bind : MBind Run := @bind.
Definition try_catch {A} (m : Run A) (h : Thrown → Run A) : Run A :=
  match result m with
  | inl e => mkRun (calls m ++ calls (h e)) (result (h e))
  | inr a => m
  end.

Definition not_initialized : string :=
  "Error: MCP client not initialized. Please check MCP_KEY configuration.".

(** The two tools that forward a search. *)
Definition is_search_tool (name : string) : Prop :=
  name = "ai_search_structured" ∨ name = "ai_search_unstructured".

(** [error instanceof Error ? error.message : String(error)]: [None]
    when [String(error)] throws.  The message of an [McpError] is the
    one its constructor composes. *)
Definition errorMessage (error : Thrown) : option string :=
  match error with
  | McpError c m =>
      Some ("MCP error " ++ pretty (error_code_number c) ++ ": " ++ m)
  | JsError m => Some m
  | Raised v => to_string v
  end.

(** The [catch (error)] block of the handler: the message is computed
    first, then an [McpError] is re-thrown and anything else wrapped. *)
Definition on_error (name : string) (error : Thrown) : Run ToolResult :=
  match errorMessage error with
  | None => throw not_primitive
  | Some message =>
      match error with
      | McpError _ _ => throw error
      | _ => throw (McpError InternalError
                      ("Error executing " ++ name ++ ": " ++ message))
      end
  end.

Section WithUpstream.

(** The upstream gateway behind [client.post(...)]: the response body, or
    the error the axios interceptor throws. *)
Variable upstream : GptMcpClient → GptSearchRequest → Thrown + JsVal.

(** [JSON.stringify(result, null, 2)] *)
Variable stringify : JsVal → string.

(** [GptMcpClient.aiSearch] *)
Definition aiSearch (c : GptMcpClient) (request : GptSearchRequest)
  : Run JsVal :=
  mkRun [request] (upstream c request).

(** [mcpClient.aiSearch(...)] on the possibly-null binding. *)
Definition client_aiSearch (mcpClient : option GptMcpClient)
    (request : GptSearchRequest) : Run JsVal :=
  match mcpClient with
  | Some c => aiSearch c request
  | None => throw (JsError "Cannot read properties of null (reading 'aiSearch')")
  end.

(** [GptMcpClient.validateConnection] *)
Definition validateConnection (c : GptMcpClient) : Run bool :=
  try_catch
    (aiSearch c (mkRequest (JStr "test") structured None None) ;;
     ret true)
    (fun _ => ret false).

(** The [switch (name)] inside the [try]. *)
Definition tool_switch (mcpClient : option GptMcpClient) (name : string)
    (args : JsVal) : Run ToolResult :=
  if String.eqb name "ai_search_structured" then
    let query := get args "query" in
    if negb (truthy query) then throw (McpError InvalidParams "query is required")
    else
      r ← client_aiSearch mcpClient (mkRequest query structured None None);
      ret (TextContent (stringify r))
  else if String.eqb name "ai_search_unstructured" then
    let query := get args "query" in
    if negb (truthy query) then throw (McpError InvalidParams "query is required")
    else
      let indices :=
        if truthy (get args "searchIndices")
        then Some (get args "searchIndices") else None in
      let only :=
        match get args "fileOnly" with
        | JUndefined => None
        | v => Some v
        end in
      r ← client_aiSearch mcpClient (mkRequest query unstructured indices only);
      ret (TextContent (stringify r))
  else if String.eqb name "validate_connection" then
    match mcpClient with
    | None =>
        ret (TextContent
               "✗ MCP client not initialized. Please check MCP_KEY configuration.")
    | Some c =>
        isValid ← validateConnection c;
        ret (TextContent
               (if isValid : bool
                then "✓ Connection to MCP API is valid and working"
                else "✗ Failed to connect to MCP API. Please check your configuration."))
    end
  else throw (McpError MethodNotFound ("Unknown tool: " ++ name)).

(** The [CallToolRequestSchema] handler of [createMcpServer], for the
    client the server instance was bound to. *)
Definition callTool (mcpClient : option GptMcpClient) (name : string)
    (args : JsVal) : Run ToolResult :=
  if negb (bool_decide (is_Some mcpClient))
     && negb (String.eqb name "validate_connection")
  then ret (TextContent not_initialized)
  else try_catch (tool_switch mcpClient name args) (on_error name).

End WithUpstream.

End Dispatch.
Export Dispatch.

(* ===================================================================== *)
(** ** The [registerTool] variant (src/index.ts) *)
(* ===================================================================== *)

Module ZodServer.

(** The arguments of [ai_search_unstructured] after the input schema
    [{ query: z.string(), searchIndices: z.string().optional(),
       fileOnly: z.boolean().default(false) }] has parsed them: [None]
    when the schema rejects them. *)
Definition parse_unstructured (args : JsVal)
  : option (string * option string * bool) :=
  match args with
  | JObj _ =>
      match get args "query" with
      | JStr query =>
          match get args "searchIndices" with
          | JUndefined =>
              match get args "fileOnly" with
              | JUndefined => Some (query, None, false)
              | JBool b => Some (query, None, b)
              | _ => None
              end
          | JStr i =>
              match get args "fileOnly" with
              | JUndefined => Some (query, Some i, false)
              | JBool b => Some (query, Some i, b)
              | _ => None
              end
          | _ => None
          end
      | _ => None
      end
  | _ => None
  end.

(** The [catch (error)] block of a handler of this variant: the message
    is returned as text; computing it can itself throw. *)
Definition error_text (prefix : string) (error : Thrown) : Run ToolResult :=
  match errorMessage error with
  | None => throw not_primitive
  | Some message => ret (TextContent (prefix ++ message))
  end.

Section WithUpstream.

Variable upstream : GptMcpClient → GptSearchRequest → Thrown + JsVal.
Variable stringify : JsVal → string.

(** The handler registered for [ai_search_unstructured], on parsed
    arguments. *)
Definition ai_search_unstructured (mcpClient : GptMcpClient)
    (query : string) (searchIndices : option string) (fileOnly : bool)
  : Run ToolResult :=
  try_catch
    (let indices :=
       match searchIndices with
       | Some i => if truthy (JStr i) then Some (JStr i) else None
       | None => None
       end in
     (* [fileOnly !== undefined] holds for every parsed boolean *)
     r ← aiSearch upstream mcpClient
           (mkRequest (JStr query) unstructured indices (Some (JBool fileOnly)));
     ret (TextContent (stringify r)))
    (error_text "Error executing ai_search_unstructured: ").

(** The handler registered for [ai_search_structured]. *)
Definition ai_search_structured (mcpClient : GptMcpClient) (query : string)
  : Run ToolResult :=
  try_catch
    (r ← aiSearch upstream mcpClient
           (mkRequest (JStr query) structured None None);
     ret (TextContent (stringify r)))
    (error_text "Error executing ai_search_structured: ").

End WithUpstream.

End ZodServer.

(* ===================================================================== *)
(** ** The session table of [startHttpServer] *)
(* ===================================================================== *)

Module Mux.

(** The property names an object literal [{}] inherits from
    [Object.prototype]; each of them reads as a function or an object,
    hence as a truthy value. *)
Definition object_prototype_keys : list string :=
  ["constructor"; "hasOwnProperty"; "isPrototypeOf"; "propertyIsEnumerable";
   "toLocaleString"; "toString"; "valueOf"; "__proto__";
   "__defineGetter__"; "__defineSetter__"; "__lookupGetter__";
   "__lookupSetter__"].

(** What [transports[k]] evaluates to. *)
Inductive Slot : Type :=
| Absent                      (* [undefined] *)
| Entry (r : nat)             (* an own property: a transport reference *)
| Inherited (name : string).  (* a member of [Object.prototype] *)

Definition slot_truthy (s : Slot) : bool :=
  match s with
  | Absent => false
  | _ => true
  end.

(** [transports[k]] for [const transports = {}], given the own
    properties. *)
Definition table_get (own : gmap string nat) (k : string) : Slot :=
  match own !! k with
  | Some r => Entry r
  | None =>
      if bool_decide (k ∈ object_prototype_keys) then Inherited k else Absent
  end.

(** The property key a header value indexes the table with. *)
Definition property_key (header : option string) : string :=
  match header with
  | Some s => s
  | None => "undefined"
  end.

(** A [StreamableHTTPServerTransport] the POST handler allocated:
    [sessionId] is [undefined] until the transport assigns it;
    [bound_client] is the [mcpClient] captured by the server instance
    connected to it, and is [None] as well while (or when) no server
    instance was connected. *)
Record Transport : Type := mkTransport {
  sessionId : option string;
  bound_client : option GptMcpClient
}.

Record State : Type := mkState {
  transports : gmap string nat;   (* own properties of [transports] *)
  heap : list Transport;          (* every transport allocated so far *)
  uuid_calls : nat;               (* calls of [randomUUID] so far *)
  store : ClientStore
}.

Definition set_transports (f : gmap string nat → gmap string nat)
    (st : State) : State :=
  mkState (f (transports st)) (heap st) (uuid_calls st) (store st).

(** What the SDK makes of a POST once the handler hands it over, which
    depends on headers and on parts of the body the handler does not
    look at:
    - [Refused]: the transport answers by itself without processing the
      message (a missing Accept header, a wrong content type, a body
      that is not a JSON-RPC message);
    - [Notified]: the message is processed; it carries no [id], and the
      202 answer has no session header;
    - [Answered]: the message is processed and answered, the answer
      carrying the session identifier when one has just been assigned;
    - [Threw]: [server.connect] or [handleRequest] throws before any
      header is sent. *)
Inductive Admission : Type := Refused | Notified | Answered | Threw.

Record Request : Type := mkReq {
  session_header : option string;   (* [req.headers['mcp-session-id']] *)
  body_is_init : bool;              (* [isInitializeRequest(req.body)] *)
  req_query : JsVal;                (* [req.query] *)
  admission : Admission
}.

Inductive Response : Type :=
| JsonRpcError (status code : Z) (message : string)
| PlainText (status : Z) (body : string)
| Handled (r : nat) (assigned : option string)
    (* transport [r] wrote the response; [assigned] is the session
       identifier it announces when it has just assigned one *)
| Uncaught (e : Thrown)
    (* the handler threw past its own code before anything was written *)
| Silent.

(** RFC 4122 text form, as [randomUUID()] returns it: 36 characters with
    hyphens at the four fixed positions. *)
Definition is_uuid (s : string) : bool :=
  (String.length s =? 36)%nat
  && forallb (fun i => bool_decide (String.get i s = Some "-"%char))
       [8%nat; 13%nat; 18%nat; 23%nat].

Definition bad_request : Response :=
  JsonRpcError 400 (-32000) "Bad Request: No valid session ID provided".

(** The answer of the [catch] block when no header was sent. *)
Definition internal_error : Response :=
  JsonRpcError 500 (-32603) "Internal server error".

Definition not_a_function : Thrown :=
  JsError "transport.handleRequest is not a function".

(** The state once the POST handler has allocated a transport for a new
    session: the transport has no identifier yet; [client] is what the
    server instance connected to it is bound to ([None] also while no
    instance is connected), [cs] the client store. *)
Definition allocated (st : State) (client : option GptMcpClient)
    (cs : ClientStore) : State :=
  mkState (transports st) (heap st ++ [mkTransport None client])
          (uuid_calls st) cs.

(** The outcome of the statements inside the [try] of the POST handler:
    an exception ends in the [catch], which answers and leaves the state
    where the exception found it. *)
Definition caught (outcome : Thrown + Response * State) (st : State)
  : Response * State :=
  match outcome with
  | inr answered => answered
  | inl _ => (internal_error, st)
  end.

Section WithEnvironment.

Variable url_parses : string → bool.
Variable parse_json : string → option JsVal.

(** [randomUUID()]: the value returned by the [n]-th call. *)
Variable randomUUID : nat → string.

(** Whether [close()] of transport [r] throws. *)
Variable close_fails : nat → bool.

(** [createMcpServer(config)]: the client the new server instance is
    bound to, or what the call throws, and the client store
    afterwards. *)
Definition createMcpServer (config : JsVal) (cs : ClientStore)
  : (Thrown + option GptMcpClient) * ClientStore :=
  getMcpClient url_parses config cs.

(** [onsessioninitialized]: [transports[newSessionId] = transport], which
    creates or overwrites an own property for every key the generator can
    return ([is_uuid] excludes the one key, "__proto__", for which an
    assignment does something else). *)
Definition onsessioninitialized (r : nat) (newSessionId : string)
    (st : State) : State :=
  set_transports (insert newSessionId r) st.

(** [transport.onclose] as installed by the POST handler. *)
Definition onclose (r : nat) (st : State) : State :=
  match heap st !! r with
  | Some t =>
      match sessionId t with
      | Some sid =>
          if truthy (JStr sid) && slot_truthy (table_get (transports st) sid)
          then set_transports (delete sid) st
          else st
      | None => st
      end
  | None => st
  end.

(** Modelled from the spec: [StreamableHTTPServerTransport.handleRequest]
    of the MCP SDK for a POST, which is not part of the repository.  A
    transport that processes an initialization message and has no
    identifier yet assigns one with the generator and, when it is a
    non-empty string, invokes the registered callback; it never assigns
    a second one.  Whether the message is processed at all, and whether
    the answer announces the identifier, is the [admission] of the
    request. *)
Definition transport_post (r : nat) (req : Request) (st : State)
  : Thrown + Response * State :=
  match admission req with
  | Threw => inl (JsError "the SDK call threw")
  | Refused => inr (Handled r None, st)
  | verdict =>
      match heap st !! r with
      | Some t =>
          match body_is_init req, sessionId t with
          | true, None =>
              let sid := randomUUID (uuid_calls st) in
              let st1 :=
                mkState (transports st)
                        (<[r := mkTransport (Some sid) (bound_client t)]> (heap st))
                        (S (uuid_calls st)) (store st) in
              inr (Handled r match verdict with
                             | Answered => Some sid
                             | _ => None
                             end,
                   if truthy (JStr sid) then onsessioninitialized r sid st1
                   else st1)
          | _, _ => inr (Handled r None, st)
          end
      | None => inr (Handled r None, st)
      end
  end.

(** Modelled from the spec: [close()] of the SDK transport, which signals
    closure through [onclose] unless it throws first. *)
Definition transport_close (r : nat) (st : State) : Thrown + State :=
  if close_fails r then inl (JsError "close failed") else inr (onclose r st).

(** Modelled from the spec: [handleRequest] of the SDK transport for a
    DELETE performs the close sequence. *)
Definition transport_delete (r : nat) (st : State) : Response * State :=
  match transport_close r st with
  | inr st' => (Handled r None, st')
  | inl e => (Uncaught e, st)
  end.

(** [app.post('/mcp', ...)].  The query is parsed, and logged, before
    the [try]; the transport of a new session is allocated before
    [createMcpServer] runs. *)
Definition post (req : Request) (st : State) : Response * State :=
  match parseConfigFromQuery parse_json (req_query req) with
  | inl e => (Uncaught e, st)
  | inr config =>
      let sessionId := of_option (session_header req) in
      let slot := table_get (transports st) (property_key (session_header req)) in
      if truthy sessionId && slot_truthy slot then
        match slot with
        | Entry r => caught (transport_post r req st) st
        | _ =>
            (* [handleRequest] is missing: the [TypeError] reaches the
               [catch] with no header sent *)
            (internal_error, st)
        end
      else if negb (truthy sessionId) && body_is_init req then
        let r := List.length (heap st) in
        match createMcpServer config (store st) with
        | (inl _, cs) => (internal_error, allocated st None cs)
        | (inr client, cs) =>
            let connected := allocated st client cs in
            caught (transport_post r req connected) connected
        end
      else (bad_request, st)
  end.

(** [app.get('/mcp', ...)] *)
Definition get_stream (req : Request) (st : State) : Response * State :=
  let sessionId := of_option (session_header req) in
  let slot := table_get (transports st) (property_key (session_header req)) in
  if negb (truthy sessionId) || negb (slot_truthy slot) then
    (PlainText 400 "Invalid or missing session ID", st)
  else
    match slot with
    | Entry r => (Handled r None, st)
    | _ => (Uncaught not_a_function, st)
    end.

(** [app.delete('/mcp', ...)] *)
Definition delete_session (req : Request) (st : State) : Response * State :=
  let sessionId := of_option (session_header req) in
  let slot := table_get (transports st) (property_key (session_header req)) in
  if negb (truthy sessionId) || negb (slot_truthy slot) then
    (PlainText 400 "Invalid or missing session ID", st)
  else
    match slot with
    | Entry r => transport_delete r st
    | _ => (Uncaught not_a_function, st)
    end.

(** The [for (const sessionId in transports)] loop of the SIGINT handler,
    over the keys the enumeration yields; a key deleted before it is
    reached is skipped. *)
Fixpoint close_all (keys : list string) (st : State) : State :=
  match keys with
  | [] => st
  | sessionId :: rest =>
      match transports st !! sessionId with
      | Some r =>
          match transport_close r st with
          | inr st' => close_all rest (set_transports (delete sessionId) st')
          | inl _ => close_all rest st   (* logged; the [delete] is skipped *)
          end
      | None => close_all rest st
      end
  end.

(** [process.on('SIGINT', ...)]: the exit code and the state at
    [process.exit].  The enumeration visits the own keys of the table;
    their order plays no role once every entry is filed under the
    identifier of its transport. *)
Definition shutdown (st : State) : Z * State :=
  (0, close_all (map_to_list (transports st)).*1 st).

(** What the event loop delivers to the multiplexer. *)
Inductive Event : Type :=
| POST (req : Request)
| GET (req : Request)
| DELETE (req : Request)
| Closed (r : nat).   (* transport [r] signals closure on its own *)

Definition step (ev : Event) (st : State) : Response * State :=
  match ev with
  | POST req => post req st
  | GET req => get_stream req st
  | DELETE req => delete_session req st
  | Closed r => (Silent, onclose r st)
  end.

Fixpoint run (evs : list Event) (st : State) : list Response * State :=
  match evs with
  | [] => ([], st)
  | ev :: rest =>
      let '(resp, st1) := step ev st in
      let '(resps, st2) := run rest st1 in
      (resp :: resps, st2)
  end.

(** The table at [app.listen]. *)
Definition init (cs : ClientStore) : State := mkState ∅ [] 0 cs.

(** The session identifiers announced by a list of responses. *)
Definition created (resps : list Response) : list string :=
  omap (fun resp => match resp with
                    | Handled _ (Some sid) => Some sid
                    | _ => None
                    end) resps.

(** The session identifiers assigned so far, in the order of the
    transports that hold them. *)
Definition assigned (st : State) : list string := omap sessionId (heap st).

(** Every table entry is filed under the identifier of the transport it
    points to. *)
Definition filed (st : State) : Prop :=
  ∀ k r, transports st !! k = Some r →
         ∃ t, heap st !! r = Some t ∧ sessionId t = Some k.

(** The bookkeeping every reachable state satisfies: the identifiers
    held by the transports are the identifiers drawn, each once and in
    the order of the draws, and the table is [filed]. *)
Definition wf (st : State) : Prop :=
  assigned st = randomUUID <$> seq 0 (uuid_calls st) ∧ filed st.

(** The state after a session was opened on top of [st]: one more
    transport, holding the identifier just drawn and filed under it
    (unless the generator returned the empty string). *)
Definition opened (st : State) (client : option GptMcpClient)
    (cs : ClientStore) : State :=
  let sid := randomUUID (uuid_calls st) in
  mkState (if truthy (JStr sid)
           then <[sid := List.length (heap st)]> (transports st)
           else transports st)
          (heap st ++ [mkTransport (Some sid) client])
          (S (uuid_calls st)) cs.

(** The generator did not repeat itself over its first [n] draws. *)
Definition fresh_upto (n : nat) : Prop := NoDup (randomUUID <$> seq 0 n).

End WithEnvironment.

End Mux.
Import Mux.

(* ===================================================================== *)
(** ** Concrete environments for the closed examples *)
(* ===================================================================== *)

Module Sample.

(** A generator that counts: the [n]-th identifier ends in the digits of
    [n]. *)
Definition uuid (n : nat) : string :=
  "3f2b8c1e-77aa-4000-8000-00000000000" ++ pretty n.

Definition tenant : GptMcpClient := mkClient (JStr DEFAULT_API_HOST) (JStr "k1").

(** No client from the environment, empty cache. *)
Definition bare : ClientStore := mkStore ∅ None.

(** A default client from the environment, empty cache. *)
Definition with_default : ClientStore := mkStore ∅ (Some tenant).

Definition post := Mux.post (fun _ => true) (fun _ => None) uuid.

Definition run (close_fails : nat → bool) :=
  Mux.run (fun _ => true) (fun _ => None) uuid close_fails.

Definition open_session : Request := mkReq None true JUndefined Answered.

End Sample.

(* ===================================================================== *)
(** ** The tool registry and the [ListToolsRequestSchema] handler *)
(* ===================================================================== *)

Module Registry.

Inductive JsonType : Type := TString | TBoolean.

(** One entry of [inputSchema.properties]. *)
Record SchemaProperty : Type := mkProp {
  prop_name : string;
  prop_type : JsonType;
  prop_description : string;
  prop_default : option JsVal
}.

(** One element of [TOOLS]; [inputSchema.type] is "object" throughout. *)
Record ToolDescriptor : Type := mkTool {
  tool_name : string;
  tool_description : string;
  tool_properties : list SchemaProperty;
  tool_required : list string
}.

Definition TOOLS : list ToolDescriptor :=
  [ mkTool "ai_search_structured"
      "Search using AI with structured search - returns structured data from configured data sources. This uses natural language understanding to query structured databases and returns organized, tabular results. Best for questions that require querying relational data, structured records, or when you need precise data extraction from databases."
      [ mkProp "query" TString
          "Natural language query to search for (e.g., 'how to install AXYS', 'find all users in engineering department'). This is mostly used for transaction, details, users, people, sessions etc"
          None ]
      ["query"];
    mkTool "ai_search_unstructured"
      "Search using AI with unstructured search - searches documents, videos, and files using natural language. This tool performs semantic search across unstructured content like PDFs, Word documents, videos, images, and other file types. It uses AI to understand context and meaning, making it ideal for finding information in documentation, presentations, or media files. Can optionally return just file references or full content extracts."
      [ mkProp "query" TString
          "Natural language query describing what you're looking for in documents or media (e.g., 'deployment instructions', 'architecture diagrams')"
          None;
        mkProp "searchIndices" TString
          "Optional: Specific index to search (e.g., 'video', 'document', 'pdf'). Leave empty to search across all unstructured content types."
          None;
        mkProp "fileOnly" TBoolean
          "Set to true to return only file metadata and references without extracting content. Use this for faster searches when you only need to know which files match, not their full content."
          (Some (JBool false)) ]
      ["query"];
    mkTool "validate_connection"
      "Validate the connection to MCP API and verify that the MCP_KEY is properly configured. Use this to troubleshoot connectivity issues or confirm the API credentials are working before attempting AI-powered searches."
      []
      [] ].

(** The [ListToolsRequestSchema] handler: [{ tools: TOOLS }]. *)
Definition listTools : list ToolDescriptor := TOOLS.

End Registry.

(* ===================================================================== *)
(** ** The axios layer of [GptMcpClient] (dist/axys-client.js) *)
(* ===================================================================== *)

Module Axios.

(** [error.response]: the body axios decoded and the HTTP status. *)
Record AxiosResponse : Type := mkResponse {
  data : JsVal;
  status : Z
}.

(** An [AxiosError] as [handleError] inspects it: [request] is whether
    [error.request] is set. *)
Record AxiosError : Type := mkError {
  response : option AxiosResponse;
  request : bool;
  message : string
}.

(** [GptMcpClient.handleError]: it never returns; this is what it throws.
    Reading [data.message] off an [undefined] or [null] body is itself a
    [TypeError], and so is a field of the body that the template literal
    cannot convert. *)
Definition handleError (error : AxiosError) : Thrown :=
  match response error with
  | Some resp =>
      match data resp with
      | JUndefined =>
          JsError "Cannot read properties of undefined (reading 'message')"
      | JNull =>
          JsError "Cannot read properties of null (reading 'message')"
      | body =>
          match (if truthy (get body "message")
                 then to_string (get body "message") else Some "Unknown error"),
                (if truthy (get body "status")
                 then to_string (get body "status")
                 else Some (pretty (status resp))) with
          | Some message, Some code =>
              JsError ("GPT MCP API Error: " ++ message
                       ++ " (Status: " ++ code ++ ")")
          | _, _ => not_primitive
          end
      end
  | None =>
      if request error
      then JsError "No response received from GPT MCP API"
      else JsError ("Request setup error: " ++ message error)
  end.

(** [this.client.post(path, request)] seen through the response
    interceptor: [response.data], or what [handleError] throws.  [net] is
    the network: the decoded body of a 2xx answer, or the axios error. *)
Definition client_post (net : GptMcpClient → GptSearchRequest → AxiosError + JsVal)
  : GptMcpClient → GptSearchRequest → Thrown + JsVal :=
  fun c request =>
    match net c request with
    | inr body => inr body
    | inl error => inl (handleError error)
    end.

End Axios.

(* ===================================================================== *)
(** ** Process entry: [STDIO_MODE] and [main] *)
(* ===================================================================== *)

Module Entry.

(** What the entry point reads besides the two variables of [Env]. *)
Record Process : Type := mkProcess {
  penv : Env;
  MCP_TRANSPORT : option string;
  PORT : option string;
  stdin_isTTY : bool
}.

(** [STDIO_MODE], as the condition of [if (STDIO_MODE)]. *)
Definition STDIO_MODE (p : Process) : bool :=
  bool_decide (MCP_TRANSPORT p = Some "stdio")
  || (truthy (of_option (MCP_KEY (penv p)))
      && negb (stdin_isTTY p)
      && negb (truthy (of_option (PORT p)))).

Inductive Startup : Type :=
| Exit (code : Z)                        (* [process.exit(code)] *)
| Stdio (bound : option GptMcpClient)    (* serving on stdio *)
| Http (st : State).                     (* listening, with this state *)

Section WithUrlParser.

Variable url_parses : string → bool.

(** [main()]: the stdio branch creates the default client (or exits) and
    then binds the server with [createMcpServer()]; an exception there
    reaches the [catch] of [main], which exits with 1.  The HTTP branch
    starts from the empty table. *)
Definition main (p : Process) : Startup :=
  if STDIO_MODE p then
    match startStdioServer_client url_parses (penv p) with
    | inl code => Exit code
    | inr c =>
        match (createMcpServer url_parses JUndefined (mkStore ∅ (Some c))).1 with
        | inr bound => Stdio bound
        | inl _ => Exit 1
        end
    end
  else Http (init (mkStore ∅ (startHttpServer_client url_parses (penv p)))).

End WithUrlParser.

End Entry.

(* ===================================================================== *)
(** ** The single-tenant factory (src/smithery-index.ts) *)
(* ===================================================================== *)

Module Smithery.

(** The head of [createServer(config)]: the client it constructs, or the
    error it throws. *)
Definition createServer_client (config : JsVal) : Thrown + GptMcpClient :=
  match config with
  | JUndefined =>
      inl (JsError "Cannot read properties of undefined (reading 'AXYS_API_HOST')")
  | JNull =>
      inl (JsError "Cannot read properties of null (reading 'AXYS_API_HOST')")
  | _ =>
      if negb (truthy (get config "AXYS_API_HOST"))
         || negb (truthy (get config "MCP_KEY"))
      then inl (JsError
                  "Missing required configuration: AXYS_API_HOST and MCP_KEY are required")
      else inr (mkClient (get config "AXYS_API_HOST") (get config "MCP_KEY"))
  end.

Section WithUpstream.

Variable upstream : GptMcpClient → GptSearchRequest → Thrown + JsVal.
Variable stringify : JsVal → string.

(** Its [CallToolRequestSchema] handler: the same [switch] and [catch],
    entered directly. *)
Definition callTool (mcpClient : GptMcpClient) (name : string) (args : JsVal)
  : Run ToolResult :=
  try_catch (tool_switch upstream stringify (Some mcpClient) name args)
            (on_error name).

End WithUpstream.

End Smithery.

(* ===================================================================== *)
(** ** The rest of the [registerTool] variant (src/index.ts) *)
(* ===================================================================== *)

Module ZodTools.

(** The client of [createServer({ config })]: the host is fixed. *)
Definition createServer_client (config : JsVal) : GptMcpClient :=
  mkClient (JStr DEFAULT_API_HOST) (get config "MCP_KEY").

Section WithUpstream.

Variable upstream : GptMcpClient → GptSearchRequest → Thrown + JsVal.

(** The handler registered for [validate_connection]. *)
Definition validate_connection (mcpClient : GptMcpClient) : Run ToolResult :=
  try_catch
    (isValid ← validateConnection upstream mcpClient;
     ret (TextContent
            (if isValid : bool
             then "✓ Connection to MCP API is valid and working"
             else "✗ Failed to connect to MCP API. Please check your configuration.")))
    (ZodServer.error_text "✗ Connection validation failed: ").

End WithUpstream.

End ZodTools.

(* ===================================================================== *)
(** ** Invariants of the client store *)
(* ===================================================================== *)

Module StoreInv.

Section WithUrlParser.

Variable url_parses : string → bool.

(** A host the gateway may hand to a client: the default one, or one that
    passed validation. *)
Definition host_ok (c : GptMcpClient) : Prop :=
  host c = JStr DEFAULT_API_HOST ∨ valid_http_url url_parses (host c).

(** Every cached client sits under the key spelled by its own host and
    key, has a truthy key and an acceptable host. *)
Definition cache_ok (cache : gmap string GptMcpClient) : Prop :=
  ∀ k c, cache !! k = Some c →
         configKey (host c) (mcpKey c) = Some k
         ∧ truthy (mcpKey c) = true ∧ host_ok c.

Definition store_ok (cs : ClientStore) : Prop :=
  cache_ok (mcpClients cs)
  ∧ ∀ c, defaultMcpClient cs = Some c → host_ok c.

Variable parse_json : string → option JsVal.

(** Whether [getMcpClient] returns for a configuration; the statement
    that can throw does not look at the store. *)
Definition resolves (config : JsVal) : bool :=
  match (getMcpClient url_parses config (mkStore ∅ None)).1 with
  | inr _ => true
  | inl _ => false
  end.

(** The POSTs for which the handler allocates a transport: no usable
    session header, an initialization message, and a query that could be
    logged; with the configuration parsed from the query. *)
Definition opening (ev : Event) : option (Request * JsVal) :=
  match ev with
  | POST req =>
      if negb (truthy (of_option (session_header req))) && body_is_init req
      then match parseConfigFromQuery parse_json (req_query req) with
           | inr config => Some (req, config)
           | inl _ => None
           end
      else None
  | _ => None
  end.

Definition allocates (ev : Event) : bool :=
  match opening ev with
  | Some _ => true
  | None => false
  end.

(** Among them, those for which an identifier is drawn: the
    configuration resolves and the transport processes the message. *)
Definition draws (ev : Event) : bool :=
  match opening ev with
  | Some (req, config) =>
      resolves config
      && match admission req with
         | Answered | Notified => true
         | Refused | Threw => false
         end
  | None => false
  end.

(** Among those, the ones whose answer announces the identifier. *)
Definition announces (ev : Event) : bool :=
  match opening ev with
  | Some (req, config) =>
      resolves config
      && match admission req with
         | Answered => true
         | _ => false
         end
  | None => false
  end.

(** The events that end the session filed under [sid] and held by
    transport [r]: a DELETE presenting the identifier, and the closure
    of the transport. *)
Definition closes (sid : string) (r : nat) (ev : Event) : bool :=
  match ev with
  | DELETE req => bool_decide (session_header req = Some sid)
  | Closed r' => bool_decide (r' = r)
  | _ => false
  end.

End WithUrlParser.

End StoreInv.

(* ===================================================================== *)
(** ** More concrete environments *)
(* ===================================================================== *)

Module Demo.

(** A generator stuck on one well-formed identifier. *)
Definition fixed_uuid (n : nat) : string := "3f2b8c1e-77aa-4000-8000-000000000000".

(** An upstream that answers every request with the string "hit". *)
Definition answering : GptMcpClient → GptSearchRequest → Thrown + JsVal :=
  fun _ _ => inr (JStr "hit").

(** An upstream that fails every request with a plain error. *)
Definition failing : GptMcpClient → GptSearchRequest → Thrown + JsVal :=
  fun _ _ => inl (JsError "socket hang up").

(** An upstream that throws an object with an own [toString] property
    instead of an [Error]. *)
Definition raising : GptMcpClient → GptSearchRequest → Thrown + JsVal :=
  fun _ _ => inl (Raised (JObj [("toString", JNull)])).

(** A network on which no request is ever answered. *)
Definition silent_net
  : GptMcpClient → GptSearchRequest → Axios.AxiosError + JsVal :=
  fun _ _ => inl (Axios.mkError None true "timeout of 180000ms exceeded").

Definition search_args : JsVal :=
  JObj [("query", JStr "manuals"); ("fileOnly", JBool true)].


Definition forced_stdio : Entry.Process :=
  Entry.mkProcess (mkEnv (Some "string") (Some "k1")) (Some "stdio") None false.

(** The first descriptor of the registry. *)
Definition first_tool : Registry.ToolDescriptor :=
  List.hd (Registry.mkTool "" "" [] []) Registry.TOOLS.

(** A query string with a host, no key, and a JSON [config]. *)
Definition host_only_query : JsVal :=
  JObj [("AXYS_API_HOST", JStr "https://tenant.example");
        ("config", JStr "%7B%22MCP_KEY%22%3A%22k2%22%7D")].

(** A query string naming a tenant with a placeholder host. *)
Definition tenant_query : JsVal :=
  JObj [("AXYS_API_HOST", JStr "string"); ("MCP_KEY", JStr "k2")].

Definition with_header (sid : string) : Request :=
  mkReq (Some sid) false JUndefined Answered.

(** [JSON.stringify] on the answers the examples use. *)
Definition render (v : JsVal) : string :=
  match v with
  | JStr s => String "034" (s ++ String "034" "")
  | _ => "null"
  end.

(** A [config] parameter whose key is an object with an own [toString]
    property: [?config={"MCP_KEY":{"toString":1}}], already decoded. *)
Definition unprintable_key : JsVal :=
  JObj [("MCP_KEY", JObj [("toString", JBool true)])].

Definition config_query : JsVal := JObj [("config", JStr "unprintable")].

(** The query [?AXYS_API_HOST[toString]=1] as a nested query parser
    hands it over. *)
Definition unprintable_host_query : JsVal :=
  JObj [("AXYS_API_HOST", JObj [("toString", JStr "1")])].

(** A decoder that knows that one parameter. *)
Definition decode (s : string) : option JsVal :=
  if String.eqb s "unprintable" then Some unprintable_key else None.

Definition post := Mux.post (fun _ => true) decode Sample.uuid.

Definition run (close_fails : nat → bool) :=
  Mux.run (fun _ => true) decode Sample.uuid close_fails.

(** A run with one session announced, one opening that fails on its
    configuration, one session opened by a notification, and a request
    on the first session. *)
Definition mixed_run : list Event :=
  [POST Sample.open_session;
   POST (mkReq None true config_query Answered);
   POST (mkReq None true JUndefined Notified);
   POST (mkReq (Some (Sample.uuid 0)) false JUndefined Answered)].

End Demo.
(* ===================================================================== *)
(** * Properties *)
(* ===================================================================== *)

(** ** Truthiness *)

Lemma truthy_str s : truthy (JStr s) = true ↔ s ≠ "".
Proof.
  simpl. destruct (String.eqb_spec s ""); simpl; split; congruence.
Qed.

Lemma truthy_of_option o :
  truthy (of_option o) = true ↔ ∃ s, o = Some s ∧ s ≠ "".
Proof.
  destruct o as [s|]; simpl.
  - rewrite (truthy_str s). split; [eauto | intros (? & [= <-] & ?); done].
  - split; [done | intros (? & ? & ?); done].
Qed.

Lemma falsy_key v : v = JUndefined ∨ v = JStr "" → truthy v = false.
Proof. by intros [-> | ->]. Qed.

(** ** Host validation and client selection *)

Section ClientFacts.

Variable url_parses : string → bool.

Lemma prefix_nonempty p s :
  p ≠ "" → String.prefix p s = true → s ≠ "".
Proof. intros Hp H ->. destruct p; [done | discriminate H]. Qed.

Lemma isValidUrl_spec v : isValidUrl url_parses v = true ↔ valid_http_url url_parses v.
Proof.
  unfold isValidUrl, valid_http_url. split.
  - destruct (truthy v) eqn:Ht; simpl; [| done].
    destruct v as [| | | | |s| |]; try done.
    destruct (url_parses s) eqn:Hp; [| done].
    intros H%orb_true_iff. eauto.
  - intros (s & -> & Hp & Hpre).
    assert (s ≠ "") as Hne
      by (destruct Hpre as [H|H]; eapply prefix_nonempty in H; done).
    apply truthy_str in Hne. rewrite Hne, Hp. simpl.
    apply orb_true_iff. done.
Qed.

Lemma isValidUrl_false v : isValidUrl url_parses v = false ↔ ¬ valid_http_url url_parses v.
Proof.
  rewrite <- isValidUrl_spec. destruct (isValidUrl url_parses v); split; congruence.
Qed.

(** On a cache miss [getMcpClient] constructs the client, stores it under
    the configuration key and returns it. *)
Lemma getMcpClient_miss config cs apiHost key :
  truthy config = true →
  truthy (get config "MCP_KEY") = true →
  apiHost = (if isValidUrl url_parses (get config "AXYS_API_HOST")
             then get config "AXYS_API_HOST" else JStr DEFAULT_API_HOST) →
  configKey apiHost (get config "MCP_KEY") = Some key →
  mcpClients cs !! key = None →
  getMcpClient url_parses config cs
  = (inr (Some (mkClient apiHost (get config "MCP_KEY"))),
     mkStore (<[key := mkClient apiHost (get config "MCP_KEY")]> (mcpClients cs))
             (defaultMcpClient cs)).
Proof.
  intros Hc Hk -> Hkey Hmiss. unfold getMcpClient. rewrite Hc, Hk. simpl.
  rewrite Hkey, Hmiss. by rewrite lookup_insert_eq.
Qed.

(** On a cache hit nothing is constructed: the stored client is returned
    and the store is left as it was. *)
Lemma getMcpClient_hit config cs apiHost key c :
  truthy config = true →
  truthy (get config "MCP_KEY") = true →
  apiHost = (if isValidUrl url_parses (get config "AXYS_API_HOST")
             then get config "AXYS_API_HOST" else JStr DEFAULT_API_HOST) →
  configKey apiHost (get config "MCP_KEY") = Some key →
  mcpClients cs !! key = Some c →
  getMcpClient url_parses config cs = (inr (Some c), cs).
Proof.
  intros Hc Hk -> Hkey Hhit. unfold getMcpClient. rewrite Hc, Hk. simpl.
  rewrite Hkey, Hhit. destruct cs as [cache dflt]. simpl in *. by rewrite Hhit.
Qed.

(** When the key text cannot be computed the call throws and the store
    is left as it was. *)
Lemma getMcpClient_throws config cs :
  truthy config = true →
  truthy (get config "MCP_KEY") = true →
  configKey (if isValidUrl url_parses (get config "AXYS_API_HOST")
             then get config "AXYS_API_HOST" else JStr DEFAULT_API_HOST)
            (get config "MCP_KEY") = None →
  getMcpClient url_parses config cs = (inl not_primitive, cs).
Proof.
  intros Hc Hk Hkey. unfold getMcpClient. rewrite Hc, Hk. simpl.
  by rewrite Hkey.
Qed.

Lemma getMcpClient_no_key config cs :
  truthy (get config "MCP_KEY") = false →
  getMcpClient url_parses config cs = (inr (defaultMcpClient cs), cs).
Proof.
  intros Hk. unfold getMcpClient. rewrite Hk. by rewrite andb_false_r.
Qed.

(** Whenever a client is constructed, its host is the given one if it
    passes URL validation and the hard-coded default otherwise: by
    [getMcpClient] on a cache miss (first two parts), and by the HTTP and
    the stdio entry points for the default client (last two parts). *)
Lemma constructed_client_host :
  (∀ config cs key,
     truthy config = true → truthy (get config "MCP_KEY") = true →
     ¬ valid_http_url url_parses (get config "AXYS_API_HOST") →
     configKey (JStr DEFAULT_API_HOST) (get config "MCP_KEY") = Some key →
     mcpClients cs !! key = None →
     ∃ cs', getMcpClient url_parses config cs
            = (inr (Some (mkClient (JStr DEFAULT_API_HOST) (get config "MCP_KEY"))),
               cs'))
  ∧ (∀ config cs key,
       truthy config = true → truthy (get config "MCP_KEY") = true →
       valid_http_url url_parses (get config "AXYS_API_HOST") →
       configKey (get config "AXYS_API_HOST") (get config "MCP_KEY") = Some key →
       mcpClients cs !! key = None →
       ∃ cs', getMcpClient url_parses config cs
              = (inr (Some (mkClient (get config "AXYS_API_HOST")
                                     (get config "MCP_KEY"))), cs'))
  ∧ (∀ env k,
       MCP_KEY env = Some k → k ≠ "" →
       ¬ valid_http_url url_parses (of_option (AXYS_API_HOST env)) →
       startHttpServer_client url_parses env
         = Some (mkClient (JStr DEFAULT_API_HOST) (JStr k))
       ∧ startStdioServer_client url_parses env
         = inr (mkClient (JStr DEFAULT_API_HOST) (JStr k)))
  ∧ (∀ env k,
       MCP_KEY env = Some k → k ≠ "" →
       valid_http_url url_parses (of_option (AXYS_API_HOST env)) →
       startHttpServer_client url_parses env
         = Some (mkClient (of_option (AXYS_API_HOST env)) (JStr k))
       ∧ startStdioServer_client url_parses env
         = inr (mkClient (of_option (AXYS_API_HOST env)) (JStr k))).
Proof.
  split; [| split; [| split]].
  - intros config cs key Hc Hk Hbad%isValidUrl_false Hkey Hmiss.
    eexists. eapply getMcpClient_miss; try done; by rewrite Hbad.
  - intros config cs key Hc Hk Hok%isValidUrl_spec Hkey Hmiss.
    eexists. eapply getMcpClient_miss; try done; by rewrite Hok.
  - intros env k Hk Hne%truthy_str Hbad%isValidUrl_false.
    unfold startHttpServer_client, startStdioServer_client.
    rewrite Hbad, Hk. cbn [of_option]. rewrite Hne. cbn [negb]. by rewrite Hne.
  - intros env k Hk Hne%truthy_str Hok%isValidUrl_spec.
    unfold startHttpServer_client, startStdioServer_client.
    rewrite Hok, Hk. cbn [of_option]. rewrite Hne. cbn [negb]. by rewrite Hne.
Qed.

(** Two configurations whose key texts coincide are handed the same
    client; when the text was not cached before, it is the client
    constructed for the first of them. *)
Lemma same_key_same_client first second cs key :
  truthy first = true → truthy (get first "MCP_KEY") = true →
  truthy second = true → truthy (get second "MCP_KEY") = true →
  configKey (if isValidUrl url_parses (get first "AXYS_API_HOST")
             then get first "AXYS_API_HOST" else JStr DEFAULT_API_HOST)
            (get first "MCP_KEY") = Some key →
  configKey (if isValidUrl url_parses (get second "AXYS_API_HOST")
             then get second "AXYS_API_HOST" else JStr DEFAULT_API_HOST)
            (get second "MCP_KEY") = Some key →
  ∃ c cs1,
    getMcpClient url_parses first cs = (inr (Some c), cs1)
    ∧ getMcpClient url_parses second cs1 = (inr (Some c), cs1)
    ∧ (mcpClients cs !! key = None →
       c = mkClient (if isValidUrl url_parses (get first "AXYS_API_HOST")
                     then get first "AXYS_API_HOST" else JStr DEFAULT_API_HOST)
                    (get first "MCP_KEY")).
Proof.
  intros Hf Hfk Hs Hsk Hkey1 Hkey2.
  destruct (mcpClients cs !! key) as [c|] eqn:Hc.
  - exists c, cs. split; [| split; [| done]].
    + eapply (getMcpClient_hit first); [done | done | reflexivity | done | done].
    + eapply (getMcpClient_hit second); [done | done | reflexivity | done | done].
  - eexists _, _. split; [| split; [| done]].
    + eapply (getMcpClient_miss first); [done | done | reflexivity | done | done].
    + eapply (getMcpClient_hit second); [done | done | reflexivity | done |].
      cbn. apply lookup_insert_eq.
Qed.

(** C8 at its failing inputs.  The cache key is the text [host:key], and
    two configurations can spell the same text.  A request for
    http://a.example with the key 8080/x:k, followed by a request for
    http://a.example:8080/x with the key k: both hosts pass URL
    validation, and the second request is handed the client of the
    first, whose host is not the one it gave.  A request for
    https://directory.axys.ai:8080/x with the key k, followed by a
    request with the host "string" and the key 8080/x:k: the second host
    fails validation, and the request is handed the client of the first
    instead of one with the default host. *)
Theorem host_key_text_collision cs :
  let first := JObj [("AXYS_API_HOST", JStr "http://a.example");
                     ("MCP_KEY", JStr "8080/x:k")] in
  let second := JObj [("AXYS_API_HOST", JStr "http://a.example:8080/x");
                      ("MCP_KEY", JStr "k")] in
  let third := JObj [("AXYS_API_HOST", JStr "https://directory.axys.ai:8080/x");
                     ("MCP_KEY", JStr "k")] in
  let fourth := JObj [("AXYS_API_HOST", JStr "string");
                      ("MCP_KEY", JStr "8080/x:k")] in
  url_parses "http://a.example" = true →
  url_parses "http://a.example:8080/x" = true →
  url_parses "https://directory.axys.ai:8080/x" = true →
  (valid_http_url url_parses (get second "AXYS_API_HOST")
   ∧ ∃ c cs1,
       getMcpClient url_parses first cs = (inr (Some c), cs1)
       ∧ getMcpClient url_parses second cs1 = (inr (Some c), cs1)
       ∧ (mcpClients cs !! "http://a.example:8080/x:k" = None →
          host c = JStr "http://a.example"
          ∧ host c ≠ get second "AXYS_API_HOST"))
  ∧ (¬ valid_http_url url_parses (get fourth "AXYS_API_HOST")
     ∧ ∃ c cs1,
         getMcpClient url_parses third cs = (inr (Some c), cs1)
         ∧ getMcpClient url_parses fourth cs1 = (inr (Some c), cs1)
         ∧ (mcpClients cs !! "https://directory.axys.ai:8080/x:k" = None →
            host c = JStr "https://directory.axys.ai:8080/x"
            ∧ host c ≠ JStr DEFAULT_API_HOST)).
Proof.
  intros first second third fourth H1 H2 H3. split.
  - split.
    { exists "http://a.example:8080/x". by repeat split; [| left]. }
    assert (isValidUrl url_parses (get first "AXYS_API_HOST") = true) as Hv1
      by (unfold first; cbn; by rewrite H1).
    assert (isValidUrl url_parses (get second "AXYS_API_HOST") = true) as Hv2
      by (unfold second; cbn; by rewrite H2).
    destruct (same_key_same_client first second cs "http://a.example:8080/x:k"
                eq_refl eq_refl eq_refl eq_refl)
      as (c & cs1 & Hfirst & Hsecond & Hnew);
      [by rewrite Hv1 | by rewrite Hv2 |].
    exists c, cs1. split; [done |]. split; [done |].
    intros Hmiss. rewrite (Hnew Hmiss), Hv1. done.
  - split.
    { intros (s & [= <-] & _ & [H | H]); discriminate H. }
    assert (isValidUrl url_parses (get third "AXYS_API_HOST") = true) as Hv3
      by (unfold third; cbn; by rewrite H3).
    assert (isValidUrl url_parses (get fourth "AXYS_API_HOST") = false) as Hv4
      by (unfold fourth; cbn; by destruct (url_parses "string")).
    destruct (same_key_same_client third fourth cs
                "https://directory.axys.ai:8080/x:k"
                eq_refl eq_refl eq_refl eq_refl)
      as (c & cs1 & Hthird & Hfourth & Hnew);
      [by rewrite Hv3 | by rewrite Hv4 |].
    exists c, cs1. split; [done |]. split; [done |].
    intros Hmiss. rewrite (Hnew Hmiss), Hv3. done.
Qed.

End ClientFacts.

Lemma host_key_text_collision_witness :
  (∃ c cs1,
     getMcpClient (fun _ => true)
       (JObj [("AXYS_API_HOST", JStr "http://a.example");
              ("MCP_KEY", JStr "8080/x:k")]) Sample.bare
     = (inr (Some c), cs1)
     ∧ getMcpClient (fun _ => true)
         (JObj [("AXYS_API_HOST", JStr "http://a.example:8080/x");
                ("MCP_KEY", JStr "k")]) cs1
       = (inr (Some c), cs1)
     ∧ host c = JStr "http://a.example")
  ∧ (∃ c cs1,
       getMcpClient (fun _ => true)
         (JObj [("AXYS_API_HOST", JStr "https://directory.axys.ai:8080/x");
                ("MCP_KEY", JStr "k")]) Sample.bare
       = (inr (Some c), cs1)
       ∧ getMcpClient (fun _ => true)
           (JObj [("AXYS_API_HOST", JStr "string");
                  ("MCP_KEY", JStr "8080/x:k")]) cs1
         = (inr (Some c), cs1)
       ∧ host c = JStr "https://directory.axys.ai:8080/x").
Proof.
  destruct (host_key_text_collision (fun _ => true) Sample.bare
              eq_refl eq_refl eq_refl)
    as ((_ & c & cs1 & Hfirst & Hsecond & Hhost)
        & (_ & c' & cs1' & Hthird & Hfourth & Hhost')).
  split.
  - exists c, cs1. split; [exact Hfirst |]. split; [exact Hsecond |].
    exact (proj1 (Hhost eq_refl)).
  - exists c', cs1'. split; [exact Hthird |]. split; [exact Hfourth |].
    exact (proj1 (Hhost' eq_refl)).
Defined.

(** ** Tool dispatch *)

Section DispatchFacts.

Variable upstream : GptMcpClient → GptSearchRequest → Thrown + JsVal.
Variable stringify : JsVal → string.

Abbreviation callTool := (callTool upstream stringify).
Abbreviation tool_switch := (tool_switch upstream stringify).

Lemma callTool_unbound name args :
  name ≠ "validate_connection" →
  callTool None name args = ret (TextContent not_initialized).
Proof.
  intros Hn%String.eqb_neq. unfold Dispatch.callTool.
  rewrite Hn. reflexivity.
Qed.

Lemma callTool_bound c name args :
  callTool (Some c) name args
  = try_catch (tool_switch (Some c) name args) (on_error name).
Proof. reflexivity. Qed.

Lemma search_tool_not_probe name :
  is_search_tool name → name ≠ "validate_connection".
Proof. intros [-> | ->]; discriminate. Qed.

Lemma tool_switch_no_query mcpClient name args :
  is_search_tool name →
  truthy (get args "query") = false →
  tool_switch mcpClient name args
  = throw (McpError InvalidParams "query is required").
Proof.
  intros [-> | ->] Hq; unfold Dispatch.tool_switch; cbn [String.eqb Ascii.eqb Bool.eqb];
    by rewrite Hq.
Qed.

(** C4, as the handler implements it: a call of ai_search_structured or
    ai_search_unstructured whose query is missing or the empty string
    never reaches the upstream; on a server instance with a bound client
    it fails with McpError(InvalidParams, "query is required"), and on an
    instance without a client it returns the client-not-initialized text
    instead of failing. *)
Theorem empty_query_rejected_before_upstream mcpClient name args :
  is_search_tool name →
  get args "query" = JUndefined ∨ get args "query" = JStr "" →
  calls (callTool mcpClient name args) = []
  ∧ (is_Some mcpClient →
     result (callTool mcpClient name args)
     = inl (McpError InvalidParams "query is required"))
  ∧ (mcpClient = None →
     result (callTool mcpClient name args)
     = inr (TextContent not_initialized)).
Proof.
  intros Hname Hq%falsy_key. destruct mcpClient as [c|].
  - rewrite callTool_bound, (tool_switch_no_query _ _ _ Hname Hq).
    split; [reflexivity |]. split; [reflexivity | discriminate].
  - rewrite (callTool_unbound _ _ (search_tool_not_probe _ Hname)).
    split; [reflexivity |]. split; [intros [? [=]] | reflexivity].
Qed.

Lemma tool_switch_unstructured mcpClient args :
  truthy (get args "query") = true →
  tool_switch mcpClient "ai_search_unstructured" args
  = (r ← client_aiSearch upstream mcpClient
          (mkRequest (get args "query") unstructured
             (if truthy (get args "searchIndices")
              then Some (get args "searchIndices") else None)
             (match get args "fileOnly" with
              | JUndefined => None
              | v => Some v
              end));
     ret (TextContent (stringify r))).
Proof.
  intros Hq. unfold Dispatch.tool_switch. cbn [String.eqb Ascii.eqb Bool.eqb].
  by rewrite Hq.
Qed.

Lemma calls_bind_aiSearch {B} c req (k : JsVal → Run B) :
  (∀ r, calls (k r) = []) →
  calls (r ← aiSearch upstream c req; k r) = [req].
Proof.
  intros Hk. unfold mbind, run_bind, bind, aiSearch. simpl.
  destruct (upstream c req); simpl; [done | by rewrite Hk].
Qed.

Lemma calls_try_catch_rethrow {A} (m : Run A) (h : Thrown → Run A) :
  (∀ e, calls (h e) = []) → calls (try_catch m h) = calls m.
Proof.
  intros Hh. unfold try_catch. destruct (result m); simpl; [| done].
  by rewrite Hh, app_nil_r.
Qed.

Lemma on_error_calls name e : calls (on_error name e) = [].
Proof. unfold on_error. destruct (errorMessage e); [by destruct e | done]. Qed.

(** C5, as the handler implements it: a call of ai_search_unstructured
    that passes the guards (bound client, truthy query) issues exactly one
    upstream request; [fileOnly] is in that request exactly when the
    caller's arguments have the property (with any value, [false]
    included), and [searchIndices] is in it exactly when the caller
    supplied a truthy value, so that an empty string is dropped like an
    omitted one. *)
Theorem unstructured_optional_fields c args :
  truthy (get args "query") = true →
  ∃ req,
    calls (callTool (Some c) "ai_search_unstructured" args) = [req]
    ∧ query req = get args "query"
    ∧ searchType req = unstructured
    ∧ (∀ v, fileOnly req = Some v ↔ get args "fileOnly" = v ∧ v ≠ JUndefined)
    ∧ (fileOnly req = None ↔ get args "fileOnly" = JUndefined)
    ∧ (∀ v, searchIndices req = Some v
            ↔ get args "searchIndices" = v ∧ truthy v = true)
    ∧ (searchIndices req = None ↔ truthy (get args "searchIndices") = false).
Proof.
  intros Hq. eexists. split.
  - rewrite callTool_bound, calls_try_catch_rethrow by apply on_error_calls.
    rewrite (tool_switch_unstructured _ _ Hq). simpl.
    by apply calls_bind_aiSearch.
  - cbn [query searchType fileOnly searchIndices].
    split; [done |]. split; [done |]. split; [| split; [| split]].
    + intros v. destruct (get args "fileOnly"); split;
        first [intros [= <-]; done | intros [<- ?]; done].
    + destruct (get args "fileOnly"); split; done.
    + intros v. destruct (truthy (get args "searchIndices")) eqn:Ht; split;
        first [intros [= <-]; done | intros [<- ?]; congruence | done].
    + destruct (truthy (get args "searchIndices")); split; done.
Qed.

(** [GptMcpClient.validateConnection] returns a boolean whatever the
    upstream does. *)
Lemma validateConnection_total c :
  result (validateConnection upstream c)
  = inr (match upstream c (mkRequest (JStr "test") structured None None) with
         | inr _ => true
         | inl _ => false
         end).
Proof.
  unfold validateConnection, try_catch, mbind, run_bind, bind, aiSearch.
  simpl. by destruct (upstream c _).
Qed.

(** C6: validate_connection never throws.  Whatever the probe does, an
    answer or any thrown value, and also when no client is bound, the
    tool returns a text: the success line when the probe answered, the
    failure line when it threw, the not-initialized line without a
    client. *)
Theorem validate_connection_never_throws mcpClient args :
  result (callTool mcpClient "validate_connection" args)
  = inr (TextContent
           match mcpClient with
           | None =>
               "✗ MCP client not initialized. Please check MCP_KEY configuration."
           | Some c =>
               match upstream c (mkRequest (JStr "test") structured None None) with
               | inr _ => "✓ Connection to MCP API is valid and working"
               | inl _ =>
                   "✗ Failed to connect to MCP API. Please check your configuration."
               end
           end).
Proof.
  destruct mcpClient as [c|]; [| reflexivity].
  rewrite callTool_bound. unfold Dispatch.tool_switch.
  cbn [String.eqb Ascii.eqb Bool.eqb].
  pose proof (validateConnection_total c) as Hv.
  unfold try_catch, mbind, run_bind, bind. rewrite Hv. simpl.
  by destruct (upstream c _).
Qed.

Lemma tool_switch_unknown mcpClient name args :
  name ≠ "ai_search_structured" → name ≠ "ai_search_unstructured" →
  name ≠ "validate_connection" →
  tool_switch mcpClient name args
  = throw (McpError MethodNotFound ("Unknown tool: " ++ name)).
Proof.
  intros H1%String.eqb_neq H2%String.eqb_neq H3%String.eqb_neq.
  unfold Dispatch.tool_switch. by rewrite H1, H2, H3.
Qed.

(** C7, as the handler implements it.  Once the dispatch [try] is entered
    (a client is bound, or the tool is validate_connection), whatever
    escapes the tool is reclassified: an McpError is re-thrown unchanged,
    any other Error becomes McpError(InternalError) with the message
    "Error executing <name>: <original message>", and a thrown non-Error
    likewise with its string form (when it has none, the TypeError of the
    failed conversion escapes instead); an unknown tool name fails with
    McpError(MethodNotFound).  Without a bound client every name other
    than validate_connection, unknown names included, yields the
    client-not-initialized text and no error. *)
Theorem dispatch_error_taxonomy mcpClient name args :
  (is_Some mcpClient ∨ name = "validate_connection" →
   ∀ e, result (tool_switch mcpClient name args) = inl e →
        result (callTool mcpClient name args)
        = inl match e with
              | McpError code message => McpError code message
              | JsError message =>
                  McpError InternalError
                    ("Error executing " ++ name ++ ": " ++ message)
              | Raised v =>
                  match to_string v with
                  | Some text =>
                      McpError InternalError
                        ("Error executing " ++ name ++ ": " ++ text)
                  | None => not_primitive
                  end
              end)
  ∧ (is_Some mcpClient →
     name ≠ "ai_search_structured" → name ≠ "ai_search_unstructured" →
     name ≠ "validate_connection" →
     result (callTool mcpClient name args)
     = inl (McpError MethodNotFound ("Unknown tool: " ++ name)))
  ∧ (mcpClient = None → name ≠ "validate_connection" →
     callTool mcpClient name args = ret (TextContent not_initialized)).
Proof.
  split; [| split].
  - intros Hin e He.
    assert (callTool mcpClient name args
            = try_catch (tool_switch mcpClient name args) (on_error name)) as ->.
    { destruct mcpClient as [c|]; [done |].
      destruct Hin as [[? [=]] | ->]. reflexivity. }
    unfold try_catch. rewrite He. destruct e as [code m | m | v]; [done | done |].
    unfold on_error. cbn [errorMessage]. by destruct (to_string v).
  - intros [c ->] H1 H2 H3.
    by rewrite callTool_bound, tool_switch_unknown.
  - intros -> Hn. by apply callTool_unbound.
Qed.

End DispatchFacts.

Lemma empty_query_rejected_before_upstream_witness :
  calls (callTool (fun _ _ => inr JNull) (fun _ => "null")
           (Some (mkClient (JStr DEFAULT_API_HOST) (JStr "k1")))
           "ai_search_unstructured" (JObj [("query", JStr "")])) = []
  ∧ result (callTool (fun _ _ => inr JNull) (fun _ => "null")
              (Some (mkClient (JStr DEFAULT_API_HOST) (JStr "k1")))
              "ai_search_unstructured" (JObj [("query", JStr "")]))
    = inl (McpError InvalidParams "query is required").
Proof.
  destruct (empty_query_rejected_before_upstream
              (fun _ _ => inr JNull) (fun _ => "null")
              (Some (mkClient (JStr DEFAULT_API_HOST) (JStr "k1")))
              "ai_search_unstructured" (JObj [("query", JStr "")]))
    as (Hcalls & Hbound & _).
  - right. reflexivity.
  - right. reflexivity.
  - split; [exact Hcalls | apply Hbound; eexists; reflexivity].
Defined.

(** C4 fails as stated on a server instance without a client: the missing
    query is answered with a text, not with an invalid-parameters
    error. *)
Lemma empty_query_unbound_counterexample :
  get (JObj []) "query" = JUndefined
  ∧ result (callTool (fun _ _ => inr JNull) (fun _ => "null") None
              "ai_search_structured" (JObj []))
    = inr (TextContent not_initialized)
  ∧ ¬ (∃ code message,
         result (callTool (fun _ _ => inr JNull) (fun _ => "null") None
                   "ai_search_structured" (JObj []))
         = inl (McpError code message)).
Proof.
  split; [reflexivity |]. split; [reflexivity |].
  intros (code & message & H). discriminate H.
Qed.

Lemma unstructured_optional_fields_witness :
  ∃ req,
    calls (callTool (fun _ _ => inr JNull) (fun _ => "null")
             (Some (mkClient (JStr DEFAULT_API_HOST) (JStr "k1")))
             "ai_search_unstructured"
             (JObj [("query", JStr "manuals"); ("fileOnly", JBool false)]))
    = [req]
    ∧ fileOnly req = Some (JBool false)
    ∧ searchIndices req = None.
Proof.
  destruct (unstructured_optional_fields
              (fun _ _ => inr JNull) (fun _ => "null")
              (mkClient (JStr DEFAULT_API_HOST) (JStr "k1"))
              (JObj [("query", JStr "manuals"); ("fileOnly", JBool false)]))
    as (req & Hcalls & _ & _ & Hfile & _ & _ & Hidx).
  - reflexivity.
  - exists req. split; [exact Hcalls |]. split.
    + apply Hfile. split; [reflexivity | discriminate].
    + apply Hidx. reflexivity.
Defined.

(** C5 fails as stated for [searchIndices]: the caller supplies it, as
    the empty string, and the forwarded request does not have it. *)
Lemma empty_searchIndices_counterexample :
  get (JObj [("query", JStr "manuals"); ("searchIndices", JStr "")])
      "searchIndices" = JStr ""
  ∧ calls (callTool (fun _ _ => inr JNull) (fun _ => "null")
             (Some (mkClient (JStr DEFAULT_API_HOST) (JStr "k1")))
             "ai_search_unstructured"
             (JObj [("query", JStr "manuals"); ("searchIndices", JStr "")]))
    = [mkRequest (JStr "manuals") unstructured None None].
Proof. split; reflexivity. Qed.

Lemma dispatch_error_taxonomy_witness :
  result (callTool (fun _ _ => inl (JsError "No response received from GPT MCP API"))
            (fun _ => "null")
            (Some (mkClient (JStr DEFAULT_API_HOST) (JStr "k1")))
            "ai_search_structured" (JObj [("query", JStr "manuals")]))
  = inl (McpError InternalError
           "Error executing ai_search_structured: No response received from GPT MCP API")
  ∧ result (callTool (fun _ _ => inr JNull) (fun _ => "null")
              (Some (mkClient (JStr DEFAULT_API_HOST) (JStr "k1")))
              "list_indices" JUndefined)
    = inl (McpError MethodNotFound "Unknown tool: list_indices")
  ∧ callTool (fun _ _ => inr JNull) (fun _ => "null") None
      "ai_search_structured" (JObj [("query", JStr "manuals")])
    = ret (TextContent not_initialized).
Proof.
  split; [| split].
  - apply (proj1 (dispatch_error_taxonomy
                    (fun _ _ => inl (JsError "No response received from GPT MCP API"))
                    (fun _ => "null")
                    (Some (mkClient (JStr DEFAULT_API_HOST) (JStr "k1")))
                    "ai_search_structured" (JObj [("query", JStr "manuals")]))
                 (or_introl (ex_intro _ _ eq_refl))
                 (JsError "No response received from GPT MCP API")).
    reflexivity.
  - apply (proj1 (proj2 (dispatch_error_taxonomy
                    (fun _ _ => inr JNull) (fun _ => "null")
                    (Some (mkClient (JStr DEFAULT_API_HOST) (JStr "k1")))
                    "list_indices" JUndefined))).
    + eexists. reflexivity.
    + discriminate.
    + discriminate.
    + discriminate.
  - apply (proj2 (proj2 (dispatch_error_taxonomy
                    (fun _ _ => inr JNull) (fun _ => "null") None
                    "ai_search_structured" (JObj [("query", JStr "manuals")]))));
      [reflexivity | discriminate].
Defined.

(** C7 fails as stated on a server instance without a client: an unknown
    tool name is answered with a text, not with method-not-found. *)
Lemma unknown_tool_unbound_counterexample :
  result (callTool (fun _ _ => inr JNull) (fun _ => "null") None
            "list_indices" JUndefined)
  = inr (TextContent not_initialized)
  ∧ result (callTool (fun _ _ => inr JNull) (fun _ => "null") None
              "list_indices" JUndefined)
    ≠ inl (McpError MethodNotFound "Unknown tool: list_indices").
Proof. split; [reflexivity | discriminate]. Qed.

(** The [registerTool] variant of src/index.ts validates with the schema
    instead: [z.string()] admits the empty query, which is then sent
    upstream, and [z.boolean().default(false)] turns an omitted
    [fileOnly] into [false], which is then forwarded. *)
Remark zod_variant_forwards_empty_query_and_default :
  ZodServer.parse_unstructured (JObj [("query", JStr "")])
  = Some ("", None, false)
  ∧ calls (ZodServer.ai_search_unstructured (fun _ _ => inr JNull)
             (fun _ => "null") (mkClient (JStr DEFAULT_API_HOST) (JStr "k1"))
             "" None false)
    = [mkRequest (JStr "") unstructured None (Some (JBool false))].
Proof. split; reflexivity. Qed.

(** ** The session table *)

(** ** The session table *)

Section MuxFacts.

Variable url_parses : string → bool.
Variable parse_json : string → option JsVal.
Variable randomUUID : nat → string.
Variable close_fails : nat → bool.

Abbreviation post := (post url_parses parse_json randomUUID).
Abbreviation delete_session := (delete_session close_fails).
Abbreviation step := (step url_parses parse_json randomUUID close_fails).
Abbreviation run := (run url_parses parse_json randomUUID close_fails).
Abbreviation shutdown := (shutdown close_fails).
Abbreviation close_all := (close_all close_fails).
Abbreviation wf := (wf randomUUID).
Abbreviation opened := (opened randomUUID).

Lemma table_get_absent own k :
  own !! k = None → k ∉ object_prototype_keys → table_get own k = Absent.
Proof.
  intros Hk Hp. unfold table_get. rewrite Hk.
  by rewrite bool_decide_eq_false_2.
Qed.

Lemma table_get_entry own k r : own !! k = Some r → table_get own k = Entry r.
Proof. intros Hk. unfold table_get. by rewrite Hk. Qed.

Lemma table_get_own_None own k :
  slot_truthy (table_get own k) = false → own !! k = None.
Proof. unfold table_get. by destruct (own !! k). Qed.

(** A POST with a header that is really unknown: the query is parsed
    (and logged) first, then the request is turned away. *)
Lemma post_unknown_header req st sid :
  session_header req = Some sid → sid ≠ "" →
  transports st !! sid = None → sid ∉ object_prototype_keys →
  post req st
  = match parseConfigFromQuery parse_json (req_query req) with
    | inr _ => (bad_request, st)
    | inl e => (Uncaught e, st)
    end.
Proof.
  intros Hh Hne%truthy_str Hk Hp. unfold Mux.post.
  destruct (parseConfigFromQuery _ _) as [e | config]; [done |].
  rewrite Hh. cbn [of_option property_key].
  by rewrite (table_get_absent _ _ Hk Hp), Hne.
Qed.

(** C1, as the handler implements it: a POST whose session header is a
    non-empty identifier that is neither in the table nor the name of a
    property every object inherits creates no session, whatever the body
    is, and leaves the state unchanged: it is answered with status 400
    and the JSON-RPC error -32000 "Bad Request: No valid session ID
    provided", unless logging the query parameters throws, in which case
    the handler throws before it answers.  A POST whose session header
    is the empty string is handled as a POST without the header. *)
Theorem unknown_session_rejected :
  (∀ req st sid,
     session_header req = Some sid → sid ≠ "" →
     transports st !! sid = None → sid ∉ object_prototype_keys →
     post req st
     = match parseConfigFromQuery parse_json (req_query req) with
       | inr _ => (bad_request, st)
       | inl e => (Uncaught e, st)
       end)
  ∧ (∀ req st,
       session_header req = Some "" →
       post req st
       = post (mkReq None (body_is_init req) (req_query req) (admission req)) st).
Proof.
  split.
  - intros req st sid. apply post_unknown_header.
  - intros req st Hh. unfold Mux.post. rewrite Hh. reflexivity.
Qed.

(** ** Closing *)

Lemma onclose_heap r st : heap (onclose r st) = heap st.
Proof.
  unfold onclose. destruct (heap st !! r) as [t|]; [| done].
  destruct (sessionId t) as [sid|]; [| done].
  by destruct (truthy (JStr sid) && slot_truthy (table_get (transports st) sid)).
Qed.

Lemma onclose_cases r st :
  onclose r st = st
  ∨ ∃ t sid, heap st !! r = Some t ∧ sessionId t = Some sid
             ∧ onclose r st = set_transports (delete sid) st.
Proof.
  unfold onclose. destruct (heap st !! r) as [t|]; [| by left].
  destruct (sessionId t) as [sid|] eqn:Hs; [| by left].
  destruct (truthy (JStr sid) && slot_truthy (table_get (transports st) sid));
    [right; eauto | by left].
Qed.

(** The [onclose] callback can be invoked again at no cost. *)
Lemma onclose_idempotent r st : onclose r (onclose r st) = onclose r st.
Proof.
  destruct (onclose_cases r st) as [H | (t & sid & Hr & Hs & H)].
  - by rewrite !H.
  - rewrite H. unfold onclose. cbn [heap set_transports]. rewrite Hr, Hs.
    destruct (truthy (JStr sid) && _); [| done].
    unfold set_transports. cbn. by rewrite delete_delete_eq.
Qed.

(** After [onclose] the table has no entry under the transport's
    identifier. *)
Lemma onclose_removes r st t sid :
  heap st !! r = Some t → sessionId t = Some sid → sid ≠ "" →
  transports (onclose r st) !! sid = None.
Proof.
  intros Hr Hs Hne%truthy_str. unfold onclose. rewrite Hr, Hs, Hne.
  cbn [andb].
  destruct (slot_truthy (table_get (transports st) sid)) eqn:Hslot.
  - cbn. apply lookup_delete_eq.
  - by apply table_get_own_None.
Qed.

(** ** Reachable states *)

Lemma wf_init cs : wf (init cs).
Proof.
  split; [done |]. intros k r H. cbn in H. by rewrite lookup_empty in H.
Qed.

Lemma wf_filed st : wf st → filed st.
Proof. by intros [_ ?]. Qed.

Lemma wf_delete k st : wf st → wf (set_transports (delete k) st).
Proof.
  intros [Ha Hf]. split; [done |].
  intros k' r. cbn. intros H%lookup_delete_Some. apply Hf, H.
Qed.

Lemma onclose_wf r st : wf st → wf (onclose r st).
Proof.
  intros Hwf. destruct (onclose_cases r st) as [-> | (t & sid & _ & _ & ->)];
    [done | by apply wf_delete].
Qed.

Lemma onclose_uuid_calls r st : uuid_calls (onclose r st) = uuid_calls st.
Proof.
  by destruct (onclose_cases r st) as [-> | (t & sid & _ & _ & ->)].
Qed.

Lemma assigned_allocated st c cs : assigned (allocated st c cs) = assigned st.
Proof. unfold assigned. cbn. rewrite omap_app. cbn. apply app_nil_r. Qed.

Lemma assigned_opened st c cs :
  assigned (opened st c cs) = (assigned st ++ [randomUUID (uuid_calls st)])%list.
Proof. unfold assigned. cbn. by rewrite omap_app. Qed.

Lemma wf_allocated st c cs : wf st → wf (allocated st c cs).
Proof.
  intros [Ha Hf]. split; [by rewrite assigned_allocated |].
  intros k r Hk. destruct (Hf k r Hk) as (t & Hr & Hs).
  exists t. split; [| done]. cbn. by apply lookup_app_l_Some.
Qed.

Lemma wf_opened st c cs : wf st → wf (opened st c cs).
Proof.
  intros [Ha Hf]. split.
  - rewrite assigned_opened, Ha. cbn [uuid_calls Mux.opened].
    by rewrite seq_S, fmap_app.
  - assert (∀ k r, transports st !! k = Some r →
              ∃ t, heap (opened st c cs) !! r = Some t ∧ sessionId t = Some k)
      as Hold.
    { intros k r Hk. destruct (Hf k r Hk) as (t & Hr & Hs).
      exists t. split; [| done]. cbn. by apply lookup_app_l_Some. }
    intros k r. cbn [transports Mux.opened].
    destruct (truthy (JStr (randomUUID (uuid_calls st)))); [| apply Hold].
    intros [[<- <-] | [_ Hk]]%lookup_insert_Some; [| by apply Hold].
    eexists. split; [apply list_lookup_middle; done | done].
Qed.

(** The identifier of a transport of a well-formed state is one of the
    generator's draws. *)
Lemma assigned_drawn st r t k :
  wf st → heap st !! r = Some t → sessionId t = Some k →
  ∃ i, (i < uuid_calls st)%nat ∧ k = randomUUID i.
Proof.
  intros [Ha _] Hr Hs.
  assert (k ∈ assigned st) as Hin.
  { apply list_elem_of_omap. exists t. split; [| done].
    by eapply list_elem_of_lookup_2. }
  rewrite Ha in Hin.
  apply list_elem_of_fmap in Hin as (i & -> & Hi%elem_of_seq).
  exists i. split; [lia | done].
Qed.

(** A transport that already has its identifier never assigns another
    one. *)
Lemma transport_post_held r req st t k :
  heap st !! r = Some t → sessionId t = Some k →
  caught (transport_post randomUUID r req st) st
  = (match admission req with
     | Threw => internal_error
     | _ => Handled r None
     end, st).
Proof.
  intros Hr Hs. unfold transport_post.
  destruct (admission req); cbn [caught]; try done;
    rewrite Hr, Hs; by destruct (body_is_init req).
Qed.

(** The transport just allocated, handed an initialization message. *)
Lemma transport_post_fresh req st c cs :
  body_is_init req = true →
  caught (transport_post randomUUID (List.length (heap st)) req
            (allocated st c cs)) (allocated st c cs)
  = match admission req with
    | Threw => (internal_error, allocated st c cs)
    | Refused => (Handled (List.length (heap st)) None, allocated st c cs)
    | Notified => (Handled (List.length (heap st)) None, opened st c cs)
    | Answered =>
        (Handled (List.length (heap st)) (Some (randomUUID (uuid_calls st))),
         opened st c cs)
    end.
Proof.
  intros Hi. unfold transport_post.
  destruct (admission req); cbn [caught]; try done;
    cbn [heap allocated]; rewrite list_lookup_middle by done;
    rewrite Hi; cbn [sessionId bound_client uuid_calls transports store];
    unfold Mux.opened, onsessioninitialized, set_transports;
    cbn [heap uuid_calls transports store];
    rewrite insert_app_r_alt by done; rewrite Nat.sub_diag; cbn;
    by destruct (negb (String.eqb (randomUUID (uuid_calls st)) "")).
Qed.

(** A POST without a usable session header that carries an
    initialization message allocates one transport; when the
    configuration resolves and the transport processes the message it
    draws one identifier and files the transport under it. *)
Lemma post_new req st config :
  truthy (of_option (session_header req)) = false →
  body_is_init req = true →
  parseConfigFromQuery parse_json (req_query req) = inr config →
  post req st
  = match createMcpServer url_parses config (store st) with
    | (inl _, cs) => (internal_error, allocated st None cs)
    | (inr client, cs) =>
        match admission req with
        | Threw => (internal_error, allocated st client cs)
        | Refused => (Handled (List.length (heap st)) None, allocated st client cs)
        | Notified => (Handled (List.length (heap st)) None, opened st client cs)
        | Answered =>
            (Handled (List.length (heap st)) (Some (randomUUID (uuid_calls st))),
             opened st client cs)
        end
    end.
Proof.
  intros Hh Hi Hc. unfold Mux.post. rewrite Hc, Hh, Hi. cbn [andb negb].
  destruct (createMcpServer _ _ _) as [[e | client] cs]; [done |].
  by apply transport_post_fresh.
Qed.

(** A POST or a GET for a live session is handed to its transport and
    changes nothing. *)
Lemma routed_to_entry req st sid r :
  filed st → session_header req = Some sid → sid ≠ "" →
  transports st !! sid = Some r →
  post req st
  = match parseConfigFromQuery parse_json (req_query req) with
    | inr _ => (match admission req with
                | Threw => internal_error
                | _ => Handled r None
                end, st)
    | inl e => (Uncaught e, st)
    end
  ∧ get_stream req st = (Handled r None, st).
Proof.
  intros Hf Hh Hne%truthy_str Hk. unfold Mux.post, get_stream.
  rewrite Hh. cbn [of_option property_key].
  rewrite (table_get_entry _ _ _ Hk), Hne. cbn [slot_truthy andb negb orb].
  split; [| done].
  destruct (parseConfigFromQuery _ _) as [e | config]; [done |].
  destruct (Hf _ _ Hk) as (t & Hr & Hs). by eapply transport_post_held.
Qed.

(** What a POST does, by cases on the request and the table. *)
Lemma post_cases req st :
  filed st →
  (post req st).2 = st ∧ created [(post req st).1] = []
  ∨ ∃ config,
      truthy (of_option (session_header req)) = false
      ∧ body_is_init req = true
      ∧ parseConfigFromQuery parse_json (req_query req) = inr config.
Proof.
  intros Hf.
  destruct (parseConfigFromQuery parse_json (req_query req)) as [e | config] eqn:Hc.
  { left. unfold Mux.post. by rewrite Hc. }
  destruct (truthy (of_option (session_header req))) eqn:Hh.
  - left. unfold Mux.post. rewrite Hc, Hh. cbn [andb negb].
    destruct (table_get _ _) as [| r | name] eqn:Hslot; cbn [slot_truthy]; try done.
    assert (transports st !! property_key (session_header req) = Some r) as Hk.
    { unfold table_get in Hslot.
      destruct (transports st !! _) as [r'|]; [by injection Hslot as -> |].
      by destruct (bool_decide _). }
    destruct (Hf _ _ Hk) as (t & Hr & Hs).
    rewrite (transport_post_held _ _ _ _ _ Hr Hs).
    by destruct (admission req).
  - destruct (body_is_init req) eqn:Hi; [right; by exists config |].
    left. unfold Mux.post. by rewrite Hc, Hh, Hi.
Qed.

(** One step of the event loop draws at most one identifier, and
    announces none but the one it draws. *)
Lemma step_cases ev st resp st' :
  wf st → step ev st = (resp, st') →
  wf st'
  ∧ ((created [resp] = []
      ∧ (uuid_calls st' = uuid_calls st ∨ uuid_calls st' = S (uuid_calls st)))
     ∨ (created [resp] = [randomUUID (uuid_calls st)]
        ∧ uuid_calls st' = S (uuid_calls st))).
Proof.
  intros Hwf. destruct ev as [req | req | req | r]; cbn [Mux.step].
  - destruct (post_cases req st (wf_filed _ Hwf))
      as [[Hst Hcr] | (config & Hh & Hi & Hc)].
    + intros Hs. rewrite Hs in Hst, Hcr. cbn in Hst, Hcr. subst st'.
      split; [done |]. left. split; [done | by left].
    + rewrite (post_new _ _ _ Hh Hi Hc).
      destruct (createMcpServer _ _ _) as [[e | client] cs].
      { intros [= <- <-]. split; [by apply wf_allocated |].
        left. split; [done | by left]. }
      destruct (admission req); intros [= <- <-].
      * split; [by apply wf_allocated |]. left. split; [done | by left].
      * split; [by apply wf_opened |]. left. split; [done | by right].
      * split; [by apply wf_opened |]. by right.
      * split; [by apply wf_allocated |]. left. split; [done | by left].
  - unfold get_stream.
    destruct (negb _ || negb _).
    + intros [= <- <-]. split; [done |]. left. split; [done | by left].
    + destruct (table_get _ _); intros [= <- <-];
        (split; [done |]; left; split; [done | by left]).
  - unfold Mux.delete_session.
    destruct (negb _ || negb _).
    + intros [= <- <-]. split; [done |]. left. split; [done | by left].
    + destruct (table_get _ _) as [| r | name];
        try (intros [= <- <-]; (split; [done |]; left; split; [done | by left])).
      unfold transport_delete, transport_close.
      destruct (close_fails r); intros [= <- <-].
      * split; [done |]. left. split; [done | by left].
      * split; [by apply onclose_wf |]. left.
        split; [done | left; apply onclose_uuid_calls].
  - intros [= <- <-]. split; [by apply onclose_wf |]. left.
    split; [done | left; apply onclose_uuid_calls].
Qed.

Lemma created_cons resp resps :
  created (resp :: resps) = (created [resp] ++ created resps)%list.
Proof. unfold created. cbn. by destruct resp as [| | r [sid|] | |]. Qed.

(** Over a run the identifiers announced are among the identifiers
    drawn, in the order of the draws. *)
Lemma run_created evs st resps st' :
  wf st → run evs st = (resps, st') →
  wf st'
  ∧ (uuid_calls st ≤ uuid_calls st')%nat
  ∧ created resps
    `sublist_of` randomUUID <$> seq (uuid_calls st) (uuid_calls st' - uuid_calls st).
Proof.
  revert st resps st'. induction evs as [| ev evs IH]; intros st resps st' Hwf.
  - cbn. intros [= <- <-]. split; [done |]. split; [done |].
    by rewrite Nat.sub_diag.
  - cbn [Mux.run]. destruct (step ev st) as [resp st1] eqn:Hstep.
    destruct (run evs st1) as [resps1 st2] eqn:Hrun.
    intros [= <- <-].
    destruct (step_cases _ _ _ _ Hwf Hstep) as (Hwf1 & Hcase).
    destruct (IH _ _ _ Hwf1 Hrun) as (Hwf2 & Hle & Hcr).
    split; [done |]. rewrite created_cons.
    destruct Hcase as [[-> [Heq | Heq]] | [-> Heq]]; rewrite Heq in *.
    + done.
    + split; [lia |].
      replace (uuid_calls st2 - uuid_calls st)%nat
        with (S (uuid_calls st2 - S (uuid_calls st)))%nat by lia.
      cbn. by apply sublist_cons.
    + split; [lia |].
      replace (uuid_calls st2 - uuid_calls st)%nat
        with (S (uuid_calls st2 - S (uuid_calls st)))%nat by lia.
      cbn. by apply sublist_skip.
Qed.

Lemma run_wf evs cs resps st : run evs (init cs) = (resps, st) → wf st.
Proof.
  intros Hrun. by destruct (run_created _ _ _ _ (wf_init cs) Hrun).
Qed.

Lemma fresh_upto_inj n i j :
  fresh_upto randomUUID n → (i < n)%nat → (j < n)%nat →
  randomUUID i = randomUUID j → i = j.
Proof.
  intros Hnd Hi Hj Heq.
  apply (proj1 (NoDup_alt _) Hnd i j (randomUUID i)).
  - by rewrite list_lookup_fmap, lookup_seq_lt.
  - by rewrite list_lookup_fmap, lookup_seq_lt, Heq.
Qed.

Lemma fresh_upto_le n m :
  (m ≤ n)%nat → fresh_upto randomUUID n → fresh_upto randomUUID m.
Proof.
  intros Hle. unfold fresh_upto.
  replace n with (m + (n - m))%nat by lia.
  rewrite seq_app, fmap_app. by intros [? _]%NoDup_app.
Qed.

(** Two positions of a list that carry the same key are the same
    position when the keys of the list do not repeat. *)
Lemma omap_NoDup_lookup {A B} (f : A → option B) (l : list A) i j a b k :
  NoDup (omap f l) → l !! i = Some a → l !! j = Some b →
  f a = Some k → f b = Some k → i = j.
Proof.
  revert i j. induction l as [| x l IH]; intros i j Hnd Hi Hj Ha Hb.
  { by rewrite lookup_nil in Hi. }
  assert (∀ n c, l !! n = Some c → f c = Some k → k ∈ omap f l) as Hin.
  { intros n c Hn Hc. apply list_elem_of_omap. exists c.
    split; [by eapply list_elem_of_lookup_2 | done]. }
  assert (NoDup (omap f l)) as Hnd'.
  { cbn in Hnd. destruct (f x); [by apply NoDup_cons in Hnd as [_ ?] | done]. }
  destruct i as [| i], j as [| j]; cbn in Hi, Hj.
  - done.
  - injection Hi as ->. cbn in Hnd. rewrite Ha in Hnd.
    apply NoDup_cons in Hnd as [Hnot _]. destruct Hnot. by eapply Hin.
  - injection Hj as ->. cbn in Hnd. rewrite Hb in Hnd.
    apply NoDup_cons in Hnd as [Hnot _]. destruct Hnot. by eapply Hin.
  - f_equal. by apply IH.
Qed.

(** A DELETE for an identifier that is really unknown is turned away with
    a 400 and changes nothing. *)
Lemma delete_unknown req st sid :
  session_header req = Some sid →
  transports st !! sid = None → sid ∉ object_prototype_keys →
  delete_session req st = (PlainText 400 "Invalid or missing session ID", st).
Proof.
  intros Hh Hk Hp. unfold Mux.delete_session. rewrite Hh.
  cbn [of_option property_key]. rewrite (table_get_absent _ _ Hk Hp).
  cbn [slot_truthy negb]. by rewrite orb_true_r.
Qed.

Lemma is_uuid_nonempty s : is_uuid s = true → s ≠ "".
Proof. intros H ->. discriminate H. Qed.

(** Once a transport of a reachable state has signalled closure, no table
    entry points to it any more. *)
Lemma closed_session_not_retained cs evs resps st r k :
  (∀ n, is_uuid (randomUUID n) = true) →
  run evs (init cs) = (resps, st) →
  transports (onclose r st) !! k ≠ Some r.
Proof.
  intros Hshape Hrun Hk. pose proof (run_wf _ _ _ _ Hrun) as Hwf.
  destruct (wf_filed _ (onclose_wf r _ Hwf) _ _ Hk) as (t & Hr & Hs).
  rewrite onclose_heap in Hr.
  destruct (assigned_drawn _ _ _ _ Hwf Hr Hs) as (i & _ & ->).
  rewrite (onclose_removes r st t (randomUUID i)) in Hk;
    [done | done | done | by apply is_uuid_nonempty].
Qed.

(** A DELETE for a live session runs the close sequence of its
    transport. *)
Lemma delete_live_session req st sid r :
  session_header req = Some sid → sid ≠ "" →
  transports st !! sid = Some r → close_fails r = false →
  delete_session req st = (Handled r None, onclose r st).
Proof.
  intros Hh Hne%truthy_str Hk Hc. unfold Mux.delete_session.
  rewrite Hh. cbn [of_option property_key].
  rewrite (table_get_entry _ _ _ Hk), Hne. cbn.
  unfold transport_delete, transport_close. by rewrite Hc.
Qed.

(** C3 at its failing input: a DELETE whose session header is
    "constructor", an identifier no session ever had, passes the guard
    because [transports["constructor"]] is the inherited constructor, and
    the call of its missing [handleRequest] raises out of the handler. *)
Theorem delete_inherited_key_raises cs :
  transports (init cs) !! "constructor" = None
  ∧ delete_session (mkReq (Some "constructor") false JUndefined Answered) (init cs)
    = (Uncaught not_a_function, init cs).
Proof. split; reflexivity. Qed.

(** C2, as the multiplexer implements it.  In every state it reaches
    from the empty table: each table entry is filed under the identifier
    held by the transport it points to, and no transport is filed under
    two identifiers; the identifiers held by the transports allocated so
    far are the generator's draws, each handed to one transport, in the
    order of the draws, and every identifier announced in a response is
    among them; so, as long as the generator has not repeated itself, no
    two transports ever hold the same identifier.  A POST without a
    session header that carries an initialization message creates
    exactly one session, under an identifier that no transport holds and
    no table entry has, when its configuration resolves and the
    transport processes the message; it creates none when logging the
    query throws, when [createMcpServer] throws, when the transport
    refuses the request or when the SDK call throws. *)
Theorem session_identifiers_unique cs evs resps st :
  run evs (init cs) = (resps, st) →
  filed st
  ∧ (∀ k1 k2 r, transports st !! k1 = Some r → transports st !! k2 = Some r →
                k1 = k2)
  ∧ assigned st = randomUUID <$> seq 0 (uuid_calls st)
  ∧ created resps `sublist_of` assigned st
  ∧ (fresh_upto randomUUID (uuid_calls st) →
     ∀ r1 r2 t1 t2 k,
       heap st !! r1 = Some t1 → heap st !! r2 = Some t2 →
       sessionId t1 = Some k → sessionId t2 = Some k → r1 = r2)
  ∧ (fresh_upto randomUUID (S (uuid_calls st)) →
     randomUUID (uuid_calls st) ≠ "" →
     ∀ req config client cs',
       session_header req = None → body_is_init req = true →
       parseConfigFromQuery parse_json (req_query req) = inr config →
       createMcpServer url_parses config (store st) = (inr client, cs') →
       admission req = Answered ∨ admission req = Notified →
       ∃ st',
         post req st
         = (Handled (List.length (heap st))
                    match admission req with
                    | Answered => Some (randomUUID (uuid_calls st))
                    | _ => None
                    end, st')
         ∧ (randomUUID (uuid_calls st) ∉ assigned st)
         ∧ transports st !! randomUUID (uuid_calls st) = None
         ∧ transports st'
           = (<[randomUUID (uuid_calls st) := List.length (heap st)]>
                (transports st))
         ∧ size (transports st') = S (size (transports st))
         ∧ heap st'
           = (heap st ++ [mkTransport (Some (randomUUID (uuid_calls st))) client])%list)
  ∧ (∀ req,
       session_header req = None → body_is_init req = true →
       match parseConfigFromQuery parse_json (req_query req) with
       | inl _ => True
       | inr config =>
           match (createMcpServer url_parses config (store st)).1 with
           | inl _ => True
           | inr _ => admission req = Refused ∨ admission req = Threw
           end
       end →
       transports (post req st).2 = transports st
       ∧ assigned (post req st).2 = assigned st
       ∧ uuid_calls (post req st).2 = uuid_calls st
       ∧ created [(post req st).1] = []).
Proof.
  intros Hrun.
  destruct (run_created _ _ _ _ (wf_init cs) Hrun) as (Hwf & _ & Hcr).
  cbn in Hcr. rewrite Nat.sub_0_r in Hcr.
  pose proof Hwf as [Ha Hf].
  split; [exact Hf |]. split; [| split; [exact Ha |]].
  { intros k1 k2 r H1 H2.
    destruct (Hf _ _ H1) as (t1 & Hr1 & Hs1).
    destruct (Hf _ _ H2) as (t2 & Hr2 & Hs2). congruence. }
  split; [by rewrite Ha |]. split; [| split].
  - intros Hfresh r1 r2 t1 t2 k H1 H2 Hs1 Hs2.
    apply (omap_NoDup_lookup sessionId (heap st) r1 r2 t1 t2 k); try done.
    fold (assigned st). by rewrite Ha.
  - intros Hfresh Hne req config client cs' Hh Hi Hc Hsrv Hadm.
    assert (randomUUID (uuid_calls st) ∉ assigned st) as Hnew.
    { rewrite Ha. intros (i & Heq & Hin%elem_of_seq)%list_elem_of_fmap.
      apply (fresh_upto_inj _ _ _ Hfresh) in Heq; lia. }
    assert (transports st !! randomUUID (uuid_calls st) = None) as Hnone.
    { destruct (transports st !! randomUUID (uuid_calls st)) as [r|] eqn:Hk;
        [| done].
      destruct (Hf _ _ Hk) as (t & Hr & Hs). destruct Hnew.
      apply list_elem_of_omap. exists t.
      split; [by eapply list_elem_of_lookup_2 | done]. }
    exists (opened st client cs').
    assert (transports (opened st client cs')
            = <[randomUUID (uuid_calls st) := List.length (heap st)]>
                (transports st)) as Ht.
    { unfold Mux.opened. cbn [transports]. apply truthy_str in Hne.
      by rewrite Hne. }
    split; [| split; [done | split; [done | split; [done | split; [| done]]]]].
    + rewrite (post_new _ _ config) by (by rewrite ?Hh). rewrite Hsrv.
      by destruct Hadm as [-> | ->].
    + rewrite Ht. by apply map_size_insert_None.
  - intros req Hh Hi Hno.
    destruct (parseConfigFromQuery parse_json (req_query req))
      as [e | config] eqn:Hc.
    { unfold Mux.post. by rewrite Hc. }
    rewrite (post_new _ _ config) by (by rewrite ?Hh).
    destruct (createMcpServer _ _ _) as [[e | client] cs']; cbn [fst] in Hno.
    + cbn [snd fst]. by rewrite assigned_allocated.
    + destruct Hno as [-> | ->]; cbn [snd fst]; by rewrite assigned_allocated.
Qed.

(** ** Shutdown *)

Lemma close_step_table k r st :
  filed st → transports st !! k = Some r →
  transports (set_transports (delete k) (onclose r st))
  = delete k (transports st)
  ∧ heap (set_transports (delete k) (onclose r st)) = heap st.
Proof.
  intros Hf Hk. destruct (Hf k r Hk) as (t & Hr & Hs).
  split; [| cbn; apply onclose_heap].
  destruct (onclose_cases r st) as [-> | (t' & sid & Hr' & Hs' & ->)]; [done |].
  assert (sid = k) as -> by congruence.
  cbn. apply delete_delete_eq.
Qed.

Lemma filed_shrink st st' k :
  filed st → transports st' = delete k (transports st) → heap st' = heap st →
  filed st'.
Proof.
  intros Hf Ht Hh k' r. rewrite Ht, Hh. intros H%lookup_delete_Some.
  apply Hf, H.
Qed.

Lemma elem_of_cons_ne_decide (k k0 : string) (keys : list string) :
  k ≠ k0 → bool_decide (k ∈ k0 :: keys) = bool_decide (k ∈ keys).
Proof.
  intros Hne. apply bool_decide_ext. rewrite elem_of_cons.
  split; [intros [Heq | Hin]; done | by right].
Qed.

(** What the loop leaves in the table: the entries it did not visit and
    the entries whose transport failed to close. *)
Lemma close_all_lookup keys st k :
  filed st →
  transports (close_all keys st) !! k
  = match transports st !! k with
    | Some r =>
        if bool_decide (k ∈ keys) && negb (close_fails r) then None else Some r
    | None => None
    end.
Proof.
  revert st. induction keys as [| k0 keys IH]; intros st Hf.
  - cbn. by destruct (transports st !! k).
  - cbn [Mux.close_all]. destruct (transports st !! k0) as [r0|] eqn:Hk0.
    + unfold transport_close. destruct (close_fails r0) eqn:Hc.
      * rewrite IH by done. destruct (transports st !! k) as [r|] eqn:Hk; [| done].
        destruct (decide (k = k0)) as [-> | Hne].
        -- assert (r = r0) as -> by congruence. rewrite Hc.
           by rewrite !andb_false_r.
        -- by rewrite (elem_of_cons_ne_decide _ _ _ Hne).
      * destruct (close_step_table _ _ _ Hf Hk0) as [Ht Hh].
        rewrite IH by (eapply filed_shrink; done). rewrite Ht.
        destruct (decide (k = k0)) as [-> | Hne].
        -- rewrite lookup_delete_eq, Hk0, Hc.
           rewrite bool_decide_eq_true_2 by set_solver. done.
        -- rewrite lookup_delete_ne by done.
           by rewrite (elem_of_cons_ne_decide _ _ _ Hne).
    + rewrite IH by done. destruct (transports st !! k) as [r|] eqn:Hk; [| done].
      assert (k ≠ k0) as Hne by congruence.
      by rewrite (elem_of_cons_ne_decide _ _ _ Hne).
Qed.

Lemma shutdown_lookup st k :
  filed st →
  transports (shutdown st).2 !! k
  = match transports st !! k with
    | Some r => if close_fails r then Some r else None
    | None => None
    end.
Proof.
  intros Hf. unfold Mux.shutdown. cbn [snd]. rewrite close_all_lookup by done.
  destruct (transports st !! k) as [r|] eqn:Hk; [| done].
  rewrite bool_decide_eq_true_2.
  - by destruct (close_fails r).
  - apply list_elem_of_fmap. exists (k, r). split; [done |].
    by apply elem_of_map_to_list.
Qed.

(** C9, as the handler implements it: on SIGINT, in any state the
    multiplexer has reached, the handler attempts to close the transport
    of every table entry and exits with code 0; an entry whose transport
    closed is gone from the table, an entry whose [close()] threw is
    still in it when the process exits, and the table is empty when no
    [close()] threw. *)
Theorem shutdown_closes_best_effort cs evs resps st :
  run evs (init cs) = (resps, st) →
  (shutdown st).1 = 0
  ∧ (∀ k r, transports st !! k = Some r → close_fails r = false →
            transports (shutdown st).2 !! k = None)
  ∧ (∀ k r, transports st !! k = Some r → close_fails r = true →
            transports (shutdown st).2 !! k = Some r)
  ∧ ((∀ r, close_fails r = false) → transports (shutdown st).2 = ∅).
Proof.
  intros Hrun.
  pose proof (wf_filed _ (run_wf _ _ _ _ Hrun)) as Hwf.
  split; [done |]. split; [| split].
  - intros k r Hk Hc. by rewrite shutdown_lookup, Hk, Hc.
  - intros k r Hk Hc. by rewrite shutdown_lookup, Hk, Hc.
  - intros Hall. apply map_eq. intros k.
    rewrite shutdown_lookup, lookup_empty by done.
    destruct (transports st !! k) as [r|]; [| done]. by rewrite Hall.
Qed.

(** ** Sessions opened with a configuration that has no key *)


End MuxFacts.

Lemma unknown_session_rejected_witness :
  Sample.post (mkReq (Some "no-such-session") true JUndefined Answered)
              (init Sample.bare)
  = (bad_request, init Sample.bare)
  ∧ Sample.post (mkReq (Some "") false JUndefined Answered) (init Sample.bare)
    = Sample.post (mkReq None false JUndefined Answered) (init Sample.bare).
Proof.
  destruct (unknown_session_rejected (fun _ => true) (fun _ => None) Sample.uuid)
    as [Hreject Hempty].
  split.
  - apply (Hreject (mkReq (Some "no-such-session") true JUndefined Answered)
             (init Sample.bare) "no-such-session");
      [reflexivity | discriminate | reflexivity |].
    apply (bool_decide_unpack _). vm_compute. exact I.
  - apply (Hempty (mkReq (Some "") false JUndefined Answered)). reflexivity.
Defined.

(** C1 fails as stated at two headers that are not in the (empty) table:
    the empty header, with which an initialization message opens a
    session, and "constructor", which is answered with status 500 and
    code -32603. *)
Lemma unlisted_header_counterexample :
  transports (init Sample.bare) !! "" = None
  ∧ (Sample.post (mkReq (Some "") true JUndefined Answered) (init Sample.bare)).1
    = Handled 0 (Some (Sample.uuid 0))
  ∧ transports (Sample.post (mkReq (Some "") true JUndefined Answered)
                            (init Sample.bare)).2 !! Sample.uuid 0
    = Some 0%nat
  ∧ transports (init Sample.bare) !! "constructor" = None
  ∧ Sample.post (mkReq (Some "constructor") true JUndefined Answered)
                (init Sample.bare)
    = (JsonRpcError 500 (-32603) "Internal server error", init Sample.bare).
Proof. repeat split; vm_compute; reflexivity. Qed.

(** The query is parsed, and logged, before the [try]: should the query
    parser hand over an object with an own [toString] property as the
    host, as for [?AXYS_API_HOST[toString]=1] under nested parsing, the
    log line throws and the handler with it, whatever the header is. *)
Remark unprintable_host_throws :
  Sample.post (mkReq (Some "no-such-session") true
                     Demo.unprintable_host_query Answered)
              (init Sample.bare)
  = (Uncaught not_primitive, init Sample.bare)
  ∧ Sample.post (mkReq None true Demo.unprintable_host_query Answered)
                (init Sample.bare)
    = (Uncaught not_primitive, init Sample.bare).
Proof. split; vm_compute; reflexivity. Qed.

Lemma session_identifiers_unique_witness :
  created (Demo.run (fun _ => false) Demo.mixed_run (init Sample.bare)).1
  `sublist_of`
  assigned (Demo.run (fun _ => false) Demo.mixed_run (init Sample.bare)).2
  ∧ ∃ st',
      Demo.post Sample.open_session
        (Demo.run (fun _ => false) Demo.mixed_run (init Sample.bare)).2
      = (Handled 3 (Some (Sample.uuid 2)), st')
      ∧ size (transports st') = 3%nat.
Proof.
  destruct (session_identifiers_unique
              (fun _ => true) Demo.decode Sample.uuid (fun _ => false)
              Sample.bare Demo.mixed_run _ _ (surjective_pairing _))
    as (_ & _ & _ & Hsub & _ & Hone & _).
  split; [exact Hsub |].
  destruct (Hone) with (req := Sample.open_session) (config := JUndefined)
                       (client := @None GptMcpClient) (cs' := Sample.bare)
    as (st' & Hpost & _ & _ & _ & Hsize & _);
    [ unfold fresh_upto; apply (bool_decide_unpack _); vm_compute; exact I
    | discriminate | reflexivity | reflexivity | reflexivity | reflexivity
    | left; reflexivity | ].
  exists st'. split; [exact Hpost |]. rewrite Hsize. vm_compute. reflexivity.
Defined.

(** C2 fails as stated for its last part: an initialization POST
    without a session header creates no session when its configuration
    is [?config={"MCP_KEY":{"toString":true}}] (the key text cannot be
    computed and the handler answers 500 / -32603), and none when the
    transport refuses the request (e.g. for a missing Accept header). *)
Lemma opening_post_without_session_counterexample :
  session_header (mkReq None true Demo.config_query Answered) = None
  ∧ body_is_init (mkReq None true Demo.config_query Answered) = true
  ∧ (Demo.post (mkReq None true Demo.config_query Answered) (init Sample.bare)).1
    = JsonRpcError 500 (-32603) "Internal server error"
  ∧ transports
      (Demo.post (mkReq None true Demo.config_query Answered) (init Sample.bare)).2
    = ∅
  ∧ (Demo.post (mkReq None true JUndefined Refused) (init Sample.bare)).1
    = Handled 0 None
  ∧ transports
      (Demo.post (mkReq None true JUndefined Refused) (init Sample.bare)).2
    = ∅.
Proof. repeat split; vm_compute; reflexivity. Qed.

Lemma shutdown_closes_best_effort_witness :
  transports
    (shutdown (fun r => Nat.eqb r 0)
       (Sample.run (fun r => Nat.eqb r 0)
          [POST Sample.open_session; POST Sample.open_session]
          (init Sample.bare)).2).2 !! Sample.uuid 1
  = None
  ∧ transports
      (shutdown (fun r => Nat.eqb r 0)
         (Sample.run (fun r => Nat.eqb r 0)
            [POST Sample.open_session; POST Sample.open_session]
            (init Sample.bare)).2).2 !! Sample.uuid 0
    = Some 0%nat.
Proof.
  destruct (shutdown_closes_best_effort
              (fun _ => true) (fun _ => None) Sample.uuid (fun r => Nat.eqb r 0)
              Sample.bare
              [POST Sample.open_session; POST Sample.open_session]
              _ _ (surjective_pairing _))
    as (_ & Hgone & Hkept & _).
  split.
  - apply (Hgone _ 1%nat); reflexivity.
  - apply (Hkept _ 0%nat); reflexivity.
Defined.

(** C9 fails as stated when a [close()] throws: the one session of the
    table is still filed when the process exits with code 0. *)
Lemma shutdown_keeps_failed_counterexample :
  (shutdown (fun _ => true)
     (Sample.post Sample.open_session (init Sample.bare)).2).1 = 0
  ∧ transports
      (shutdown (fun _ => true)
         (Sample.post Sample.open_session (init Sample.bare)).2).2
      !! Sample.uuid 0
    = Some 0%nat
  ∧ transports
      (shutdown (fun _ => true)
         (Sample.post Sample.open_session (init Sample.bare)).2).2
    ≠ ∅.
Proof.
  split; [reflexivity |].
  assert (transports
            (shutdown (fun _ => true)
               (Sample.post Sample.open_session (init Sample.bare)).2).2
            !! Sample.uuid 0 = Some 0%nat) as H by (vm_compute; reflexivity).
  split; [exact H |]. intros Hempty. rewrite Hempty in H. discriminate H.
Qed.


(* ===================================================================== *)
(** * Further properties of the code *)
(* ===================================================================== *)

(** ** The client cache *)

Section StoreFacts.

Variable url_parses : string → bool.
Variable parse_json : string → option JsVal.

Abbreviation host_ok := (StoreInv.host_ok url_parses).
Abbreviation cache_ok := (StoreInv.cache_ok url_parses).
Abbreviation store_ok := (StoreInv.store_ok url_parses).

Abbreviation resolved config :=
  (if isValidUrl url_parses (get config "AXYS_API_HOST")
   then get config "AXYS_API_HOST" else JStr DEFAULT_API_HOST).

Lemma resolved_ok config :
  resolved config = JStr DEFAULT_API_HOST
  ∨ valid_http_url url_parses (resolved config).
Proof.
  destruct (isValidUrl _ _) eqn:Hv; [right | by left]. by apply isValidUrl_spec.
Qed.

(** The four ways a call of [getMcpClient] can go. *)
Lemma getMcpClient_cases config cs :
  (truthy config && truthy (get config "MCP_KEY") = false
   ∧ getMcpClient url_parses config cs = (inr (defaultMcpClient cs), cs))
  ∨ (truthy config = true ∧ truthy (get config "MCP_KEY") = true
     ∧ ((configKey (resolved config) (get config "MCP_KEY") = None
         ∧ getMcpClient url_parses config cs = (inl not_primitive, cs))
        ∨ ∃ key,
            configKey (resolved config) (get config "MCP_KEY") = Some key
            ∧ ((∃ c, mcpClients cs !! key = Some c
                     ∧ getMcpClient url_parses config cs = (inr (Some c), cs))
               ∨ (mcpClients cs !! key = None
                  ∧ getMcpClient url_parses config cs
                    = (inr (Some (mkClient (resolved config) (get config "MCP_KEY"))),
                       mkStore (<[key := mkClient (resolved config)
                                                  (get config "MCP_KEY")]>
                                  (mcpClients cs))
                               (defaultMcpClient cs)))))).
Proof.
  destruct (truthy config && truthy (get config "MCP_KEY")) eqn:Hc.
  - right. apply andb_true_iff in Hc as [Hcfg Hk].
    split; [done |]. split; [done |].
    destruct (configKey (resolved config) (get config "MCP_KEY")) as [key|] eqn:Hkey.
    + right. exists key. split; [done |].
      destruct (mcpClients cs !! key) as [c|] eqn:Hl.
      * left. exists c. split; [done |].
        eapply getMcpClient_hit; [done | done | reflexivity | done | done].
      * right. split; [done |].
        eapply getMcpClient_miss; [done | done | reflexivity | done | done].
    + left. split; [done |]. by apply getMcpClient_throws.
  - left. split; [done |]. unfold getMcpClient. by rewrite Hc.
Qed.

(** X1: asking again for the client of the same configuration returns
    the same client and does not touch the store, whatever the store
    held before the first call. *)
Theorem getMcpClient_reuses config cs :
  getMcpClient url_parses config (getMcpClient url_parses config cs).2
  = getMcpClient url_parses config cs.
Proof.
  destruct (getMcpClient_cases config cs)
    as [[Hc H] | (Hcfg & Hk & [[Hkey H] | (key & Hkey & [(c & Hl & H) | [Hl H]])])];
    rewrite H; cbn [snd].
  - done.
  - done.
  - done.
  - eapply getMcpClient_hit; [done | done | reflexivity | exact Hkey |].
    cbn. apply lookup_insert_eq.
Qed.

(** X2: a call of [getMcpClient] never replaces the default client and
    never evicts or overwrites a cached client; it adds at most one
    entry. *)
Theorem getMcpClient_only_adds config cs :
  defaultMcpClient (getMcpClient url_parses config cs).2 = defaultMcpClient cs
  ∧ mcpClients cs ⊆ mcpClients (getMcpClient url_parses config cs).2
  ∧ (size (mcpClients (getMcpClient url_parses config cs).2)
     ≤ S (size (mcpClients cs)))%nat.
Proof.
  destruct (getMcpClient_cases config cs)
    as [[_ ->] | (_ & _ & [[_ ->] | (key & _ & [(c & _ & ->) | [Hl ->]])])];
    cbn [snd].
  - split; [done |]. split; [done | lia].
  - split; [done |]. split; [done | lia].
  - split; [done |]. split; [done | lia].
  - cbn. split; [done |]. split; [by apply insert_subseteq |].
    by rewrite map_size_insert_None.
Qed.

Lemma getMcpClient_grows config cs :
  defaultMcpClient (getMcpClient url_parses config cs).2 = defaultMcpClient cs
  ∧ mcpClients cs ⊆ mcpClients (getMcpClient url_parses config cs).2.
Proof.
  destruct (getMcpClient_cases config cs)
    as [[_ ->] | (_ & _ & [[_ ->] | (key & _ & [(c & _ & ->) | [Hl ->]])])];
    cbn [snd]; try done.
  cbn. split; [done | by apply insert_subseteq].
Qed.

Lemma getMcpClient_ok config cs :
  store_ok cs →
  store_ok (getMcpClient url_parses config cs).2
  ∧ ∀ c, (getMcpClient url_parses config cs).1 = inr (Some c) → host_ok c.
Proof.
  intros [Hcache Hdef].
  pose proof (resolved_ok config) as Hhost.
  destruct (getMcpClient_cases config cs)
    as [[_ ->] | (_ & Hk & [[_ ->] | (key & Hkey & [(c & Hl & ->) | [Hl ->]])])];
    cbn [fst snd].
  - split; [done |]. intros c [= Hc]. by apply Hdef.
  - split; [done |]. by intros c [=].
  - split; [done |]. intros c' [= <-]. by destruct (Hcache _ _ Hl) as (_ & _ & ?).
  - split.
    + split; [| exact Hdef]. cbn.
      intros k c [[<- <-] | [_ Hin]]%lookup_insert_Some; [| by apply Hcache].
      done.
    + intros c [= <-]. exact Hhost.
Qed.

(** X3: how a query string resolves to a client.  The direct parameters
    win over the JSON [config] parameter, whatever the latter holds, and
    are taken as they are (logging them throws when the host has no
    string form); a query that gives a host but no key therefore binds
    the default client, and so does a query whose only parameter is a
    [config] that cannot be decoded.  None of these touches the
    cache. *)
Theorem query_config_resolution query cs :
  (truthy (get query "MCP_KEY") = true →
   parseConfigFromQuery parse_json query
   = match to_string (get query "AXYS_API_HOST") with
     | Some _ => inr (JObj [("AXYS_API_HOST", get query "AXYS_API_HOST");
                            ("MCP_KEY", get query "MCP_KEY")])
     | None => inl not_primitive
     end)
  ∧ (truthy (get query "MCP_KEY") = false →
     truthy (get query "AXYS_API_HOST") = true →
     match parseConfigFromQuery parse_json query with
     | inr config =>
         createMcpServer url_parses config cs = (inr (defaultMcpClient cs), cs)
     | inl e => e = not_primitive ∧ to_string (get query "AXYS_API_HOST") = None
     end)
  ∧ (truthy (get query "MCP_KEY") = false →
     truthy (get query "AXYS_API_HOST") = false →
     (∀ s, get query "config" = JStr s → parse_json s = None) →
     parseConfigFromQuery parse_json query = inr JUndefined
     ∧ createMcpServer url_parses JUndefined cs = (inr (defaultMcpClient cs), cs)).
Proof.
  split; [| split].
  - intros Hk. unfold parseConfigFromQuery. by rewrite Hk.
  - intros Hk Hh. unfold parseConfigFromQuery, createMcpServer.
    rewrite Hk, Hh. cbn [orb].
    destruct (to_string (get query "AXYS_API_HOST")); [| done].
    by apply getMcpClient_no_key.
  - intros Hk Hh Hbad. split; [| done]. unfold parseConfigFromQuery.
    rewrite Hk, Hh. cbn [orb].
    destruct (get query "config") as [| | | | |s| |] eqn:Hc; try done.
    rewrite (Hbad s eq_refl). by destruct (truthy (JStr s)).
Qed.

(** ** Process entry *)


(** X5: a server that [main] starts on stdio is always bound to a client,
    the one built from MCP_KEY, so its tool handler never takes the
    client-not-initialized exit; a server started on HTTP without MCP_KEY
    has no default client. *)
Theorem startup_bindings p :
  (∀ bound, Entry.main url_parses p = Entry.Stdio bound →
            ∃ c, bound = Some c
                 ∧ mcpKey c = of_option (MCP_KEY (Entry.penv p))
                 ∧ truthy (mcpKey c) = true ∧ host_ok c)
  ∧ (∀ st, Entry.main url_parses p = Entry.Http st →
           transports st = ∅
           ∧ (is_Some (defaultMcpClient (store st))
              ↔ truthy (of_option (MCP_KEY (Entry.penv p))) = true)).
Proof.
  unfold Entry.main. split.
  - intros bound. destruct (Entry.STDIO_MODE p); [| done].
    unfold startStdioServer_client.
    destruct (truthy (of_option (MCP_KEY (Entry.penv p)))) eqn:Hk; [| done].
    cbn [negb]. intros [= <-]. eexists. split; [reflexivity |].
    cbn. split; [done |]. split; [done |].
    unfold StoreInv.host_ok. cbn [host].
    destruct (isValidUrl _ _) eqn:Hv; [right | by left].
    by apply isValidUrl_spec.
  - intros st. destruct (Entry.STDIO_MODE p).
    + by destruct (startStdioServer_client _ _).
    + intros [= <-]. split; [done |]. cbn. unfold startHttpServer_client.
      destruct (truthy (of_option (MCP_KEY (Entry.penv p)))) eqn:Hk.
      * rewrite Hk. split; [done | by eexists].
      * cbn. split; [by intros [? [=]] | done].
Qed.

End StoreFacts.

(** ** The tool handler *)

Section DispatchExtras.

Variable upstream : GptMcpClient → GptSearchRequest → Thrown + JsVal.
Variable stringify : JsVal → string.

Abbreviation callTool := (callTool upstream stringify).
Abbreviation tool_switch := (tool_switch upstream stringify).

(** What the [catch] block makes of a thrown value. *)
Lemma try_catch_on_error_result name (m : Run ToolResult) :
  result (try_catch m (on_error name))
  = match result m with
    | inl (McpError code message) => inl (McpError code message)
    | inl e =>
        inl match errorMessage e with
            | Some message =>
                McpError InternalError
                  ("Error executing " ++ name ++ ": " ++ message)
            | None => not_primitive
            end
    | inr a => inr a
    end.
Proof.
  unfold try_catch. destruct (result m) as [e | a] eqn:Hr; [| done].
  destruct e as [code message | message | v]; [done | done |].
  unfold on_error. by destruct (errorMessage (Raised v)).
Qed.

(** What the [switch] throws is either one of its own two McpErrors or
    what the upstream threw. *)
Lemma tool_switch_throws mcpClient name args e :
  result (tool_switch mcpClient name args) = inl e →
  (∃ code message, e = McpError code message)
  ∨ (∃ message, e = JsError message)
  ∨ ∃ c req, upstream c req = inl e.
Proof.
  assert (∀ req, result (r ← client_aiSearch upstream mcpClient req;
                         ret (TextContent (stringify r))) = inl e →
                 (∃ code message, e = McpError code message)
                 ∨ (∃ message, e = JsError message)
                 ∨ ∃ c req, upstream c req = inl e) as Hsearch.
  { intros req. unfold mbind, run_bind, bind, client_aiSearch, aiSearch.
    destruct mcpClient as [c|]; cbn.
    - destruct (upstream c req) eqn:Hup; cbn; [| done].
      intros [= <-]. right. right. eauto.
    - intros [= <-]. right. left. eauto. }
  unfold Dispatch.tool_switch.
  destruct (String.eqb name "ai_search_structured").
  { destruct (negb _); [intros [= <-]; left; eauto | apply Hsearch]. }
  destruct (String.eqb name "ai_search_unstructured").
  { destruct (negb _); [intros [= <-]; left; eauto | apply Hsearch]. }
  destruct (String.eqb name "validate_connection").
  { destruct mcpClient as [c|]; [| done].
    unfold mbind, run_bind, bind. rewrite validateConnection_total. done. }
  intros [= <-]. left. eauto.
Qed.

Lemma bind_aiSearch_run c req :
  (r ← aiSearch upstream c req; ret (TextContent (stringify r)))
  = mkRun [req] match upstream c req with
                | inr r => inr (TextContent (stringify r))
                | inl e => inl e
                end.
Proof.
  unfold mbind, run_bind, bind, aiSearch. cbn.
  by destruct (upstream c req).
Qed.

(** The requests a call sends upstream, read off the tool and its
    arguments. *)
Lemma callTool_calls c name args :
  calls (callTool (Some c) name args)
  = if String.eqb name "ai_search_structured" then
      if truthy (get args "query")
      then [mkRequest (get args "query") structured None None] else []
    else if String.eqb name "ai_search_unstructured" then
      if truthy (get args "query")
      then [mkRequest (get args "query") unstructured
              (if truthy (get args "searchIndices")
               then Some (get args "searchIndices") else None)
              (match get args "fileOnly" with
               | JUndefined => None
               | v => Some v
               end)]
      else []
    else if String.eqb name "validate_connection" then
      [mkRequest (JStr "test") structured None None]
    else [].
Proof.
  rewrite callTool_bound, calls_try_catch_rethrow by apply on_error_calls.
  unfold Dispatch.tool_switch.
  destruct (String.eqb name "ai_search_structured").
  { destruct (truthy (get args "query")); [| done].
    cbn [negb client_aiSearch]. by rewrite bind_aiSearch_run. }
  destruct (String.eqb name "ai_search_unstructured").
  { destruct (truthy (get args "query")); [| done].
    cbn [negb client_aiSearch]. by rewrite bind_aiSearch_run. }
  destruct (String.eqb name "validate_connection"); [| done].
  unfold validateConnection, try_catch, mbind, run_bind, bind, aiSearch. cbn.
  by destruct (upstream c _).
Qed.

Lemma callTool_unbound_calls name args : calls (callTool None name args) = [].
Proof.
  unfold Dispatch.callTool. cbn [negb andb bool_decide].
  destruct (String.eqb name "validate_connection") eqn:Hn; [| done].
  apply String.eqb_eq in Hn as ->. reflexivity.
Qed.

(** X7: one tool call costs at most one upstream request, for every tool
    name and arguments; a server instance without a client sends none,
    and validate_connection on a bound client sends exactly the probe,
    the structured query "test". *)
Theorem at_most_one_upstream_request mcpClient name args :
  (List.length (calls (callTool mcpClient name args)) ≤ 1)%nat
  ∧ (mcpClient = None → calls (callTool mcpClient name args) = [])
  ∧ (∀ c, mcpClient = Some c → name = "validate_connection" →
          calls (callTool mcpClient name args)
          = [mkRequest (JStr "test") structured None None]).
Proof.
  split; [| split].
  - destruct mcpClient as [c|].
    + rewrite callTool_calls.
      repeat (destruct (String.eqb name _)); repeat (destruct (truthy _));
        cbn; lia.
    + rewrite callTool_unbound_calls. cbn. lia.
  - intros ->. apply callTool_unbound_calls.
  - intros c -> ->. by rewrite callTool_calls.
Qed.

(** X8: a search that the upstream answers returns the serialized answer
    as its text.  The structured tool sends the query alone, whatever
    else the arguments hold; the unstructured tool sends the request
    built from the arguments. *)
Theorem search_returns_serialized_answer c args r :
  truthy (get args "query") = true →
  (upstream c (mkRequest (get args "query") structured None None) = inr r →
   callTool (Some c) "ai_search_structured" args
   = mkRun [mkRequest (get args "query") structured None None]
           (inr (TextContent (stringify r))))
  ∧ (∀ req,
       calls (callTool (Some c) "ai_search_unstructured" args) = [req] →
       upstream c req = inr r →
       result (callTool (Some c) "ai_search_unstructured" args)
       = inr (TextContent (stringify r))).
Proof.
  intros Hq. split.
  - intros Hup. rewrite callTool_bound. unfold Dispatch.tool_switch.
    cbn [String.eqb Ascii.eqb Bool.eqb]. rewrite Hq.
    cbn [negb client_aiSearch]. rewrite bind_aiSearch_run, Hup. reflexivity.
  - intros req Hcalls Hup. rewrite callTool_calls in Hcalls.
    cbn [String.eqb Ascii.eqb Bool.eqb] in Hcalls. rewrite Hq in Hcalls.
    injection Hcalls as <-.
    rewrite callTool_bound, tool_switch_unstructured by done.
    cbn [client_aiSearch]. rewrite bind_aiSearch_run, Hup. reflexivity.
Qed.

(** X9: the handlers of src/index.ts return their failures as text.
    Each sends exactly one request and returns a text: the serialized
    answer, or "Error executing <tool>: <message>" when the upstream
    failed; only the TypeError of a thrown value that has no string form
    escapes.  The probe tool returns one of its two lines. *)
Theorem zod_handlers_return_text c query indices only :
  ZodServer.ai_search_structured upstream stringify c query
  = mkRun [mkRequest (JStr query) structured None None]
      match upstream c (mkRequest (JStr query) structured None None) with
      | inr r => inr (TextContent (stringify r))
      | inl e =>
          match errorMessage e with
          | Some message =>
              inr (TextContent
                     ("Error executing ai_search_structured: " ++ message))
          | None => inl not_primitive
          end
      end
  ∧ (∃ req,
       calls (ZodServer.ai_search_unstructured upstream stringify c query
                indices only) = [req]
       ∧ Dispatch.query req = JStr query
       ∧ fileOnly req = Some (JBool only)
       ∧ result (ZodServer.ai_search_unstructured upstream stringify c query
                   indices only)
         = match upstream c req with
           | inr r => inr (TextContent (stringify r))
           | inl e =>
               match errorMessage e with
               | Some message =>
                   inr (TextContent
                          ("Error executing ai_search_unstructured: " ++ message))
               | None => inl not_primitive
               end
           end)
  ∧ ZodTools.validate_connection upstream c
    = mkRun [mkRequest (JStr "test") structured None None]
        (inr (TextContent
                match upstream c (mkRequest (JStr "test") structured None None) with
                | inr _ => "✓ Connection to MCP API is valid and working"
                | inl _ =>
                    "✗ Failed to connect to MCP API. Please check your configuration."
                end)).
Proof.
  split; [| split].
  - unfold ZodServer.ai_search_structured. rewrite bind_aiSearch_run.
    unfold try_catch, ZodServer.error_text. cbn.
    destruct (upstream c _) as [e | r]; [| done].
    destruct (errorMessage e); cbn; by rewrite ?app_nil_r.
  - exists (mkRequest (JStr query) unstructured
              match indices with
              | Some i => if truthy (JStr i) then Some (JStr i) else None
              | None => None
              end
              (Some (JBool only))).
    unfold ZodServer.ai_search_unstructured.
    rewrite bind_aiSearch_run. unfold try_catch, ZodServer.error_text.
    cbn [result calls].
    split; [| split; [| split]].
    + destruct (upstream c _) as [e | r]; [| done].
      destruct (errorMessage e); cbn; by rewrite ?app_nil_r.
    + done.
    + done.
    + destruct (upstream c _) as [e | r]; [| done].
      by destruct (errorMessage e).
  - unfold ZodTools.validate_connection, validateConnection, try_catch,
      mbind, run_bind, bind, aiSearch. cbn.
    by destruct (upstream c _).
Qed.

(** X10: in the factory of src/smithery-index.ts the guards are
    unconditional: a search without a usable query always fails with
    McpError(InvalidParams) before any upstream request, and an unknown
    tool name always fails with McpError(MethodNotFound). *)
Theorem smithery_guards_unconditional c name args :
  (is_search_tool name → truthy (get args "query") = false →
   Smithery.callTool upstream stringify c name args
   = throw (McpError InvalidParams "query is required"))
  ∧ (name ≠ "ai_search_structured" → name ≠ "ai_search_unstructured" →
     name ≠ "validate_connection" →
     Smithery.callTool upstream stringify c name args
     = throw (McpError MethodNotFound ("Unknown tool: " ++ name))).
Proof.
  unfold Smithery.callTool. split.
  - intros Hn Hq. by rewrite tool_switch_no_query.
  - intros H1 H2 H3. by rewrite tool_switch_unknown.
Qed.

End DispatchExtras.

(** ** The handler over the axios client *)

Section AxiosFacts.

Variable net : GptMcpClient → GptSearchRequest → Axios.AxiosError + JsVal.
Variable stringify : JsVal → string.

Abbreviation callTool := (callTool (Axios.client_post net) stringify).

(** [handleError] always throws a plain [Error]. *)
Lemma handleError_plain error : ∃ m, Axios.handleError error = JsError m.
Proof.
  unfold Axios.handleError.
  destruct (Axios.response error) as [resp|].
  - destruct (Axios.data resp); try by eexists.
    all: repeat match goal with
         | |- context [if ?b then _ else _] => destruct b
         | |- context [match to_string ?v with _ => _ end] => destruct (to_string v)
         end; by eexists.
  - destruct (Axios.request error); by eexists.
Qed.

(** X6: whatever escapes the tool handler is an McpError.  For every
    upstream behaviour, tool name and arguments, a failed call carries
    one of the protocol codes, with one exception: when the upstream
    threw a value that is not an Error and has no string form, the
    TypeError of the failed conversion escapes.  Over the axios client,
    whose interceptor only throws Errors, there is no exception. *)
Theorem only_mcp_errors_escape mcpClient name args e :
  (∀ upstream,
     result (Dispatch.callTool upstream stringify mcpClient name args) = inl e →
     (∃ code message, e = McpError code message)
     ∨ (e = not_primitive
        ∧ ∃ c req v, upstream c req = inl (Raised v) ∧ to_string v = None))
  ∧ (result (callTool mcpClient name args) = inl e →
     ∃ code message, e = McpError code message).
Proof.
  assert (∀ upstream,
     result (Dispatch.callTool upstream stringify mcpClient name args) = inl e →
     (∃ code message, e = McpError code message)
     ∨ (e = not_primitive
        ∧ ∃ c req v, upstream c req = inl (Raised v) ∧ to_string v = None))
    as Hgeneral.
  { intros upstream. unfold Dispatch.callTool.
    destruct (negb _ && negb _); [done |].
    rewrite try_catch_on_error_result.
    destruct (result (tool_switch upstream stringify mcpClient name args))
      as [e0 | a] eqn:Hsw; [| done].
    destruct e0 as [code message | message | v].
    - intros [= <-]. left. eauto.
    - intros [= <-]. left. cbn. eauto.
    - destruct (tool_switch_throws _ _ _ _ _ _ Hsw)
        as [(? & ? & [=]) | [(? & [=]) | (c & req & Hup)]].
      cbn [errorMessage]. destruct (to_string v) eqn:Hv; intros [= <-].
      + left. eauto.
      + right. split; [done |]. eauto. }
  split; [exact Hgeneral |].
  intros He. destruct (Hgeneral _ He) as [H | (_ & c & req & v & Hup & _)]; [done |].
  unfold Axios.client_post in Hup. destruct (net c req) as [error | r]; [| done].
  destruct (handleError_plain error) as [m Hm]. congruence.
Qed.

(** The outcome of a search that passed the guards, in terms of what the
    network did with its one request. *)
Lemma search_outcome c name args :
  is_search_tool name → truthy (get args "query") = true →
  ∃ req,
    calls (callTool (Some c) name args) = [req]
    ∧ result (callTool (Some c) name args)
      = match net c req with
        | inr r => inr (TextContent (stringify r))
        | inl error =>
            inl match Axios.handleError error with
                | JsError m =>
                    McpError InternalError
                      ("Error executing " ++ name ++ ": " ++ m)
                | other => other
                end
        end.
Proof.
  intros [-> | ->] Hq; eexists; (split;
    [ rewrite callTool_calls; cbn [String.eqb Ascii.eqb Bool.eqb];
      rewrite Hq; reflexivity |]);
    rewrite callTool_bound, try_catch_on_error_result;
    unfold Dispatch.tool_switch;
    cbn [String.eqb Ascii.eqb Bool.eqb]; rewrite Hq;
    cbn [negb client_aiSearch]; rewrite bind_aiSearch_run;
    cbn [result]; unfold Axios.client_post;
    (destruct (net c _) as [error | r]; [| done]);
    by destruct (handleError_plain error) as [m ->].
Qed.

(** X11: the registry and the dispatcher agree.  For each tool of TOOLS,
    the call fails with "query is required" exactly when a property its
    schema lists as required is missing or falsy in the arguments, and it
    never fails with method-not-found; for every name outside TOOLS the
    call fails with method-not-found. *)
Theorem registry_matches_dispatch c args :
  (∀ d, d ∈ Registry.TOOLS →
        (result (callTool (Some c) (Registry.tool_name d) args)
         = inl (McpError InvalidParams "query is required")
         ↔ ∃ k, k ∈ Registry.tool_required d ∧ truthy (get args k) = false)
        ∧ ∀ m, result (callTool (Some c) (Registry.tool_name d) args)
               ≠ inl (McpError MethodNotFound m))
  ∧ (∀ name, name ∉ Registry.tool_name <$> Registry.TOOLS →
             result (callTool (Some c) name args)
             = inl (McpError MethodNotFound ("Unknown tool: " ++ name))).
Proof.
  split.
  - intros d Hd. unfold Registry.TOOLS in Hd.
    rewrite !elem_of_cons, elem_of_nil in Hd.
    destruct Hd as [-> | [-> | [-> | []]]]; cbn [Registry.tool_name Registry.tool_required].
    1,2: destruct (truthy (get args "query")) eqn:Hq.
    1,3: (edestruct search_outcome as (req & _ & ->);
          [first [by left | by right] | done |];
          assert (∀ error, ∃ m, Axios.handleError error = JsError m) as Hplain
            by apply handleError_plain;
          split; [| destruct (net c req) as [error | r]; [| done];
                    destruct (Hplain error) as [m ->]; done];
          split; [destruct (net c req) as [error | r]; [| done];
                  destruct (Hplain error) as [m ->]; done |];
          intros (k & ->%list_elem_of_singleton & Hk); congruence).
    1,2: (rewrite callTool_bound, tool_switch_no_query
            by first [done | by left | by right];
          split; [| done]; split; [| done];
          intros _; exists "query"; split; [apply list_elem_of_singleton |]; done).
    rewrite callTool_bound, try_catch_on_error_result.
    unfold Dispatch.tool_switch. cbn [String.eqb Ascii.eqb Bool.eqb].
    unfold try_catch, mbind, run_bind, bind.
    rewrite validateConnection_total. cbn.
    split; [| by destruct (Axios.client_post net c _)].
    split; [by destruct (Axios.client_post net c _) |].
    intros (k & Hk%elem_of_nil & _). done.
  - intros name Hn. rewrite callTool_bound, tool_switch_unknown; [done | ..];
      intros ->; apply Hn; cbn; rewrite !elem_of_cons; auto.
Qed.

(** X12: when the network fails a search, the caller gets
    McpError(InternalError) with the message "Error executing <name>: "
    followed by the text [handleError] produced: "No response received
    from GPT MCP API" when the request went out unanswered, "Request
    setup error: ..." when it could not be sent. *)
Theorem network_failure_is_internal_error c name args error :
  is_search_tool name → truthy (get args "query") = true →
  (∀ req, net c req = inl error) →
  ∃ m, Axios.handleError error = JsError m
       ∧ result (callTool (Some c) name args)
         = inl (McpError InternalError ("Error executing " ++ name ++ ": " ++ m))
       ∧ (Axios.response error = None → Axios.request error = true →
          m = "No response received from GPT MCP API")
       ∧ (Axios.response error = None → Axios.request error = false →
          m = "Request setup error: " ++ Axios.message error).
Proof.
  intros Hn Hq Hdown.
  destruct (search_outcome c name args Hn Hq) as (req & _ & ->).
  rewrite Hdown. destruct (handleError_plain error) as [m Hm].
  exists m. rewrite Hm. split; [done |]. split; [done |].
  unfold Axios.handleError in Hm.
  split; intros Hr Hq'; rewrite Hr, Hq' in Hm; congruence.
Qed.

End AxiosFacts.

(** ** The multiplexer over a run *)

Section MuxExtras.

Variable url_parses : string → bool.
Variable parse_json : string → option JsVal.
Variable randomUUID : nat → string.
Variable close_fails : nat → bool.

Abbreviation post := (post url_parses parse_json randomUUID).
Abbreviation delete_session := (delete_session close_fails).
Abbreviation step := (step url_parses parse_json randomUUID close_fails).
Abbreviation run := (run url_parses parse_json randomUUID close_fails).
Abbreviation wf := (wf randomUUID).
Abbreviation opened := (opened randomUUID).
Abbreviation host_ok := (StoreInv.host_ok url_parses).
Abbreviation store_ok := (StoreInv.store_ok url_parses).

Lemma is_uuid_not_inherited s : is_uuid s = true → s ∉ object_prototype_keys.
Proof.
  intros Hu Hin. unfold object_prototype_keys in Hin.
  rewrite !elem_of_cons, elem_of_nil in Hin.
  repeat (destruct Hin as [-> | Hin]; [discriminate Hu |]). done.
Qed.

Lemma get_unknown_header req st sid :
  session_header req = Some sid →
  transports st !! sid = None → sid ∉ object_prototype_keys →
  get_stream req st = (PlainText 400 "Invalid or missing session ID", st).
Proof.
  intros Hh Hk Hp. unfold get_stream. rewrite Hh. cbn [of_option property_key].
  rewrite (table_get_absent _ _ Hk Hp). cbn [slot_truthy negb].
  by rewrite orb_true_r.
Qed.

Lemma onclose_store r st : store (onclose r st) = store st.
Proof.
  by destruct (onclose_cases r st) as [-> | (t & sid & _ & _ & ->)].
Qed.

(** The state after a POST that opens a session, by the outcome of
    [createMcpServer]. *)
Lemma post_new_state req st config :
  truthy (of_option (session_header req)) = false →
  body_is_init req = true →
  parseConfigFromQuery parse_json (req_query req) = inr config →
  match getMcpClient url_parses config (store st) with
  | (inl _, cs) => (post req st).2 = allocated st None cs
  | (inr c, cs) =>
      (post req st).2 = allocated st c cs ∨ (post req st).2 = opened st c cs
  end.
Proof.
  intros Hh Hi Hc. rewrite (post_new _ _ _ _ _ _ Hh Hi Hc).
  unfold createMcpServer.
  destruct (getMcpClient _ _ _) as [[e | c] cs]; [done |].
  destruct (admission req); cbn [snd]; auto.
Qed.

(** The shapes of a step from a state whose table is filed: nothing
    changes, or one transport runs its [onclose], or a POST opens a
    session. *)
Lemma step_shape ev st :
  filed st →
  (step ev st).2 = st
  ∨ (∃ r, (ev = Closed r
           ∨ ∃ req sid, ev = DELETE req ∧ session_header req = Some sid
                        ∧ transports st !! sid = Some r)
          ∧ (step ev st).2 = onclose r st)
  ∨ (∃ req config,
       ev = POST req
       ∧ truthy (of_option (session_header req)) = false
       ∧ body_is_init req = true
       ∧ parseConfigFromQuery parse_json (req_query req) = inr config).
Proof.
  intros Hf. destruct ev as [req | req | req | r]; cbn [Mux.step].
  - destruct (post_cases url_parses parse_json randomUUID req st Hf)
      as [[Hst _] | (config & Hh & Hi & Hc)]; [by left |].
    right. right. by exists req, config.
  - left. unfold get_stream.
    destruct (negb _ || negb _); [done |]. by destruct (table_get _ _).
  - unfold Mux.delete_session.
    destruct (session_header req) as [sid|] eqn:Hh; [| by left].
    cbn [of_option property_key].
    destruct (negb _ || negb _); [by left |].
    unfold table_get.
    destruct (transports st !! sid) as [r|] eqn:Hk.
    + unfold transport_delete, transport_close.
      destruct (close_fails r); [by left |].
      right. left. exists r. split; [| done]. right. by exists req, sid.
    + left. by destruct (bool_decide _).
  - right. left. exists r. split; [by left | done].
Qed.

Lemma step_wf ev st : wf st → wf (step ev st).2.
Proof.
  intros Hwf. destruct (step ev st) as [resp st'] eqn:Hs.
  by destruct (step_cases _ _ _ _ _ _ _ _ Hwf Hs).
Qed.

(** A property kept by every step from a well-formed state holds at the
    end of every run. *)
Lemma run_preserves (P : State → Prop) :
  (∀ ev st, wf st → P st → P (step ev st).2) →
  ∀ evs st resps st', wf st → P st → run evs st = (resps, st') → P st'.
Proof.
  intros Hstep. induction evs as [| ev evs IH]; intros st resps st' Hwf HP.
  - cbn. by intros [= _ <-].
  - cbn [Mux.run]. destruct (step ev st) as [resp st1] eqn:Hs.
    destruct (run evs st1) as [resps1 st2] eqn:Hr. intros [= _ <-].
    eapply (IH st1); [| | exact Hr].
    + pose proof (step_wf ev st Hwf) as H. by rewrite Hs in H.
    + pose proof (Hstep ev st Hwf HP) as H. by rewrite Hs in H.
Qed.

(** X13: a request that is turned away opens nothing.  A step answered
    with the 400 / -32000 rejection, with a plain-text 400 or with an
    uncaught exception leaves the whole state as it was.  A step
    answered with 500 / -32603 leaves the table, the identifier counter
    and the identifiers held as they were; what it can leave behind is
    one transport that no table entry points to, and a cache that has
    grown.  A POST that the transport refuses on its own leaves the
    table, the counter and the identifiers held as they were, too. *)
Theorem rejections_leave_state ev st resp st' :
  step ev st = (resp, st') →
  (resp = bad_request ∨ (∃ body, resp = PlainText 400 body)
   ∨ (∃ e, resp = Uncaught e) → st' = st)
  ∧ (resp = internal_error →
     transports st' = transports st ∧ uuid_calls st' = uuid_calls st
     ∧ assigned st' = assigned st
     ∧ defaultMcpClient (store st') = defaultMcpClient (store st)
     ∧ mcpClients (store st) ⊆ mcpClients (store st')
     ∧ (st' = st ∨ ∃ c, st' = allocated st c (store st')))
  ∧ (∀ req, ev = POST req → admission req = Refused →
     transports st' = transports st ∧ uuid_calls st' = uuid_calls st
     ∧ assigned st' = assigned st).
Proof.
  intros Hs.
  set (goal := λ resp st',
    (resp = bad_request ∨ (∃ body, resp = PlainText 400 body)
     ∨ (∃ e, resp = Uncaught e) → st' = st)
    ∧ (resp = internal_error →
       transports st' = transports st ∧ uuid_calls st' = uuid_calls st
       ∧ assigned st' = assigned st
       ∧ defaultMcpClient (store st') = defaultMcpClient (store st)
       ∧ mcpClients (store st) ⊆ mcpClients (store st')
       ∧ (st' = st ∨ ∃ c, st' = allocated st c (store st')))
    ∧ (∀ req, ev = POST req → admission req = Refused →
       transports st' = transports st ∧ uuid_calls st' = uuid_calls st
       ∧ assigned st' = assigned st)).
  change (goal resp st').
  assert (∀ resp0, goal resp0 st) as Hsame.
  { intros resp0. split; [done |]. split; [| done].
    intros _. do 5 (split; [done |]). by left. }
  assert (∀ r a st1,
            (∀ req, ev = POST req → admission req = Refused →
               transports st1 = transports st ∧ uuid_calls st1 = uuid_calls st
               ∧ assigned st1 = assigned st) →
            goal (Handled r a) st1) as Hhandled.
  { intros r a st1 Href. split; [| split; [done | exact Href]].
    intros [[=] | [[? [=]] | [? [=]]]]. }
  assert (∀ c cs,
            defaultMcpClient cs = defaultMcpClient (store st) →
            mcpClients (store st) ⊆ mcpClients cs →
            goal internal_error (allocated st c cs)) as Hfailed.
  { intros c cs Hd Hsub. split; [| split].
    - intros [[=] | [[? [=]] | [? [=]]]].
    - intros _. rewrite assigned_allocated. do 5 (split; [done |]).
      right. by exists c.
    - intros req _ _. by rewrite assigned_allocated. }
  destruct ev as [req | req | req | r]; cbn [Mux.step] in Hs.
  - unfold Mux.post in Hs.
    destruct (parseConfigFromQuery _ _) as [e | config];
      [by injection Hs as <- <- |].
    destruct (truthy _ && slot_truthy _).
    + destruct (table_get _ _) as [| r | name]; try by injection Hs as <- <-.
      unfold transport_post in Hs.
      destruct (admission req) eqn:Ha; cbn [caught] in Hs;
        try by injection Hs as <- <-.
      all: destruct (heap st !! r) as [t|]; [| by injection Hs as <- <-].
      all: destruct (body_is_init req), (sessionId t);
        try by injection Hs as <- <-.
      all: injection Hs as <- <-; apply Hhandled; intros req' [= <-] Hr;
        congruence.
    + destruct (negb _ && body_is_init req) eqn:Hnew;
        [| by injection Hs as <- <-].
      apply andb_true_iff in Hnew as [_ Hi].
      unfold createMcpServer in Hs.
      pose proof (getMcpClient_grows url_parses config (store st)) as [Hd Hsub].
      destruct (getMcpClient url_parses config (store st)) as [[e | client] cs];
        cbn [snd] in Hd, Hsub.
      * injection Hs as <- <-. by apply Hfailed.
      * rewrite (transport_post_fresh randomUUID req st client cs Hi) in Hs.
        destruct (admission req) eqn:Ha; injection Hs as <- <-.
        -- apply Hhandled. intros req' _ _. by rewrite assigned_allocated.
        -- apply Hhandled. intros req' [= <-] Hr. congruence.
        -- apply Hhandled. intros req' [= <-] Hr. congruence.
        -- by apply Hfailed.
  - unfold get_stream in Hs.
    destruct (negb _ || negb _); [by injection Hs as <- <- |].
    destruct (table_get _ _); by injection Hs as <- <-.
  - unfold Mux.delete_session in Hs.
    destruct (negb _ || negb _); [by injection Hs as <- <- |].
    destruct (table_get _ _) as [| r | name]; try by injection Hs as <- <-.
    unfold transport_delete, transport_close in Hs.
    destruct (close_fails r); injection Hs as <- <-; [done |].
    by apply Hhandled.
  - injection Hs as <- <-. split; [| split; [done | done]].
    intros [[=] | [[? [=]] | [? [=]]]].
Qed.

(** What one step from a well-formed state keeps: the transports
    allocated so far, the default client, the cached clients, and the
    acceptability of every host in the store and in the sessions. *)
Lemma step_frame ev st :
  wf st →
  heap st `prefix_of` heap (step ev st).2
  ∧ defaultMcpClient (store (step ev st).2) = defaultMcpClient (store st)
  ∧ mcpClients (store st) ⊆ mcpClients (store (step ev st).2)
  ∧ (store_ok (store st) →
     (∀ r t c, heap st !! r = Some t → bound_client t = Some c → host_ok c) →
     store_ok (store (step ev st).2)
     ∧ ∀ r t c, heap (step ev st).2 !! r = Some t → bound_client t = Some c →
                host_ok c).
Proof.
  intros Hwf.
  destruct (step_shape ev st (wf_filed _ _ Hwf))
    as [-> | [(r & _ & ->) | (req & config & -> & Hh & Hi & Hc)]]; [done | |].
  { rewrite onclose_heap, onclose_store. done. }
  cbn [Mux.step].
  pose proof (post_new_state req st config Hh Hi Hc) as Hst.
  pose proof (getMcpClient_grows url_parses config (store st)) as Hg.
  pose proof (getMcpClient_ok url_parses config (store st)) as Hok.
  destruct (getMcpClient url_parses config (store st)) as [[e | c] cs'];
    cbn [fst snd] in Hg, Hok; destruct Hg as [Hd Hsub].
  - rewrite Hst. cbn [heap store allocated].
    split; [by apply prefix_app_r |]. split; [done |]. split; [done |].
    intros Hstore Hheap. destruct (Hok Hstore) as [Hst' _]. split; [done |].
    intros r t c [Hr | [_ Hr]]%lookup_app_Some Hb; [by eapply Hheap |].
    apply list_lookup_singleton_Some in Hr as [_ <-]. done.
  - assert (∃ sid, heap (post req st).2 = (heap st ++ [mkTransport sid c])%list
                   ∧ store (post req st).2 = cs') as (sid & Hheap' & Hstore').
    { destruct Hst as [-> | ->]; eexists; done. }
    rewrite Hheap', Hstore'.
    split; [by apply prefix_app_r |]. split; [done |]. split; [done |].
    intros Hstore Hheap. destruct (Hok Hstore) as [Hst' Hcl]. split; [done |].
    intros r t c0 [Hr | [_ Hr]]%lookup_app_Some Hb; [by eapply Hheap |].
    apply list_lookup_singleton_Some in Hr as [_ <-]. cbn in Hb.
    apply Hcl. by rewrite Hb.
Qed.

(** X14: a session keeps its identity.  Once a transport is allocated,
    its identifier and the client of its server instance stay the same
    through every later request, closure included: the transports known
    at one point of a run are a prefix of those known later. *)
Theorem sessions_keep_identity cs evs1 evs2 resps1 resps2 st1 st2 :
  run evs1 (init cs) = (resps1, st1) →
  run evs2 st1 = (resps2, st2) →
  heap st1 `prefix_of` heap st2.
Proof.
  intros Hrun1 Hrun2.
  apply (run_preserves (fun st => heap st1 `prefix_of` heap st))
    with (evs := evs2) (st := st1) (resps := resps2);
    [| by eapply run_wf | done | exact Hrun2].
  intros ev st Hwf Hp. etrans; [exact Hp |]. by apply step_frame.
Qed.

(** X15: serving requests never replaces the default client and never
    evicts a cached tenant client: at the end of every run the default
    client is the one of the start and the cache contains the initial
    cache. *)
Theorem run_keeps_clients cs evs resps st :
  run evs (init cs) = (resps, st) →
  defaultMcpClient (store st) = defaultMcpClient cs
  ∧ mcpClients cs ⊆ mcpClients (store st).
Proof.
  intros Hrun.
  apply (run_preserves
           (fun st => defaultMcpClient (store st) = defaultMcpClient cs
                      ∧ mcpClients cs ⊆ mcpClients (store st)))
    with (evs := evs) (st := init cs) (resps := resps);
    [| apply wf_init | done | exact Hrun].
  intros ev st0 Hwf [Hd Hsub].
  destruct (step_frame ev st0 Hwf) as (_ & Hd' & Hsub' & _).
  split; [congruence | by etrans].
Qed.

(** X16: no session is ever served by a client with an unvalidated host.
    In every state reached after [startHttpServer] built the default
    client from the environment, the default client, every cached client
    and the client of every session have either the default host or a
    host that passed URL validation. *)
Theorem hosts_always_acceptable env evs resps st :
  run evs (init (mkStore ∅ (startHttpServer_client url_parses env)))
  = (resps, st) →
  store_ok (store st)
  ∧ ∀ r t c, heap st !! r = Some t → bound_client t = Some c → host_ok c.
Proof.
  intros Hrun.
  apply (run_preserves
           (fun st => store_ok (store st)
                      ∧ ∀ r t c, heap st !! r = Some t →
                                 bound_client t = Some c → host_ok c))
    with (evs := evs) (resps := resps)
         (st := init (mkStore ∅ (startHttpServer_client url_parses env)));
    [| apply wf_init | | exact Hrun].
  - intros ev st0 Hwf [Hst Hheap].
    destruct (step_frame ev st0 Hwf) as (_ & _ & _ & H). by apply H.
  - split; [split |].
    + intros k c Hk. cbn in Hk. by rewrite lookup_empty in Hk.
    + cbn. unfold startHttpServer_client.
      destruct (truthy (if truthy _ then _ else _)); [| done].
      intros c [= <-]. unfold StoreInv.host_ok. cbn [host].
      destruct (isValidUrl _ _) eqn:Hv; [right | by left].
      by apply isValidUrl_spec.
    + intros r t c Hr. cbn in Hr. by rewrite lookup_nil in Hr.
Qed.

(** X17: the table only holds identifiers the generator drew.  In every
    reachable state, the key of an entry is one of the generator's draws
    and is the identifier held by the transport the entry points to, so
    no identifier chosen by a client is ever filed. *)
Theorem table_keys_were_drawn cs evs resps st k r :
  run evs (init cs) = (resps, st) →
  transports st !! k = Some r →
  ∃ i t, (i < uuid_calls st)%nat ∧ k = randomUUID i
         ∧ heap st !! r = Some t ∧ sessionId t = Some k.
Proof.
  intros Hrun Hk. pose proof (run_wf _ _ _ _ _ _ _ _ Hrun) as Hwf.
  destruct (wf_filed _ _ Hwf _ _ Hk) as (t & Hr & Hs).
  destruct (assigned_drawn _ _ _ _ _ Hwf Hr Hs) as (i & Hi & ->).
  by exists i, t.
Qed.

Lemma resolves_spec config cs :
  StoreInv.resolves url_parses config
  = match (getMcpClient url_parses config cs).1 with
    | inr _ => true
    | inl _ => false
    end.
Proof.
  unfold StoreInv.resolves.
  destruct (getMcpClient_cases url_parses config cs)
    as [[Hc ->] | (Hc & Hk & [[Hkey ->] | (key & Hkey & [(c & _ & ->) | [_ ->]])])];
    cbn [fst].
  - unfold getMcpClient. by rewrite Hc.
  - by rewrite getMcpClient_throws.
  - unfold getMcpClient. rewrite Hc, Hk. cbn [andb]. by rewrite Hkey.
  - unfold getMcpClient. rewrite Hc, Hk. cbn [andb]. by rewrite Hkey.
Qed.

(** What one step adds to the three counters. *)
Lemma step_counts ev st :
  filed st →
  List.length (heap (step ev st).2)
  = (List.length (heap st)
     + if StoreInv.allocates parse_json ev then 1 else 0)%nat
  ∧ uuid_calls (step ev st).2
    = (uuid_calls st + if StoreInv.draws url_parses parse_json ev then 1 else 0)%nat
  ∧ List.length (created [(step ev st).1])
    = if StoreInv.announces url_parses parse_json ev then 1%nat else 0%nat.
Proof.
  intros Hf.
  assert (∀ r, List.length (heap (onclose r st)) = (List.length (heap st) + 0)%nat
               ∧ uuid_calls (onclose r st) = (uuid_calls st + 0)%nat) as Hclose.
  { intros r. rewrite onclose_heap, onclose_uuid_calls. lia. }
  destruct ev as [req | req | req | r];
    unfold StoreInv.allocates, StoreInv.draws, StoreInv.announces;
    cbn [Mux.step StoreInv.opening].
  - destruct (post_cases url_parses parse_json randomUUID req st Hf)
      as [[Hst Hcr] | (config & Hh & Hi & Hc)].
    + rewrite Hst, Hcr.
      assert (negb (truthy (of_option (session_header req))) && body_is_init req
              = false
              ∨ ∃ e, parseConfigFromQuery parse_json (req_query req) = inl e)
        as [-> | [e ->]].
      { destruct (negb _ && body_is_init req) eqn:Hnew; [| by left].
        apply andb_true_iff in Hnew as [Hh%negb_true_iff Hi].
        destruct (parseConfigFromQuery parse_json (req_query req))
          as [e | config] eqn:Hc; [right; by exists e |].
        pose proof (post_new_state req st config Hh Hi Hc) as Hnew.
        rewrite Hst in Hnew.
        destruct (getMcpClient url_parses config (store st)) as [[e | c] cs'];
          [| destruct Hnew as [Hnew | Hnew]];
          apply (f_equal (λ s, List.length (heap s))) in Hnew;
          cbn in Hnew; rewrite length_app in Hnew; cbn in Hnew; lia. }
      * cbn. lia.
      * destruct (negb _ && body_is_init req); cbn; lia.
    + rewrite Hh, Hi, Hc. cbn [negb andb].
      rewrite (post_new _ _ _ _ _ _ Hh Hi Hc).
      rewrite (resolves_spec config (store st)). unfold createMcpServer.
      destruct (getMcpClient url_parses config (store st)) as [[e | c] cs'];
        cbn [fst snd andb].
      { cbn. rewrite length_app. cbn. lia. }
      destruct (admission req); cbn; rewrite length_app; cbn; lia.
  - unfold get_stream.
    destruct (negb _ || negb _); [cbn; lia |].
    destruct (table_get _ _); cbn; lia.
  - unfold Mux.delete_session.
    destruct (negb _ || negb _); [cbn; lia |].
    destruct (table_get _ _) as [| r | name]; try (cbn; lia).
    unfold transport_delete, transport_close.
    destruct (close_fails r); cbn [fst snd]; [cbn; lia |].
    destruct (Hclose r) as [-> ->]. cbn. lia.
  - cbn [fst snd]. destruct (Hclose r) as [-> ->]. cbn. lia.
Qed.

(** X18: the three counters of a run.  Over every run, the number of
    transports allocated is the number of POSTs that had no usable
    session header, carried an initialization message and whose query
    could be logged; the number of identifiers drawn is the number of
    those whose configuration resolved and which the transport
    processed; the number of identifiers announced is the number of
    those that were answered as requests. *)
Theorem one_session_per_opening_request cs evs resps st :
  run evs (init cs) = (resps, st) →
  List.length (heap st)
  = List.length (List.filter (StoreInv.allocates parse_json) evs)
  ∧ uuid_calls st
    = List.length (List.filter (StoreInv.draws url_parses parse_json) evs)
  ∧ List.length (created resps)
    = List.length (List.filter (StoreInv.announces url_parses parse_json) evs).
Proof.
  assert (∀ evs st0 resps st', wf st0 → run evs st0 = (resps, st') →
            List.length (heap st')
            = (List.length (heap st0)
               + List.length (List.filter (StoreInv.allocates parse_json) evs))%nat
            ∧ uuid_calls st'
              = (uuid_calls st0
                 + List.length
                     (List.filter (StoreInv.draws url_parses parse_json) evs))%nat
            ∧ List.length (created resps)
              = List.length
                  (List.filter (StoreInv.announces url_parses parse_json) evs))
    as Hcount.
  { clear. induction evs as [| ev evs IH]; intros st0 resps st' Hwf.
    - cbn. intros [= <- <-]. cbn. lia.
    - cbn [Mux.run List.filter]. destruct (step ev st0) as [resp st1] eqn:Hs.
      destruct (run evs st1) as [resps1 st2] eqn:Hr. intros [= <- <-].
      pose proof (step_wf ev st0 Hwf) as Hwf1.
      pose proof (step_counts ev st0 (wf_filed _ _ Hwf)) as (Hh & Hu & Hc).
      rewrite Hs in Hwf1, Hh, Hu, Hc. cbn [fst snd] in Hwf1, Hh, Hu, Hc.
      destruct (IH _ _ _ Hwf1 Hr) as (IHh & IHu & IHc).
      rewrite created_cons, length_app, Hc, IHh, IHu, IHc, Hh, Hu.
      destruct (StoreInv.allocates parse_json ev),
               (StoreInv.draws url_parses parse_json ev),
               (StoreInv.announces url_parses parse_json ev); cbn; lia. }
  intros Hrun. destruct (Hcount _ _ _ _ (wf_init _ cs) Hrun) as (Hh & Hu & Hc).
  cbn in Hh, Hu. done.
Qed.

(** The identifier of a table entry is one no other transport holds, as
    long as the generator has not repeated itself. *)
Lemma entry_holder st sid r r' t :
  wf st → fresh_upto randomUUID (uuid_calls st) →
  transports st !! sid = Some r →
  heap st !! r' = Some t → sessionId t = Some sid → r' = r.
Proof.
  intros [Ha Hf] Hfresh Hk Hr' Hs'.
  destruct (Hf _ _ Hk) as (t0 & Hr & Hs).
  apply (omap_NoDup_lookup sessionId (heap st) r' r t t0 sid); try done.
  fold (assigned st). by rewrite Ha.
Qed.

(** A table entry survives every step that neither serves a DELETE for
    its identifier nor closes its transport. *)
Lemma step_keeps_entry ev st sid r :
  wf st → fresh_upto randomUUID (uuid_calls (step ev st).2) →
  transports st !! sid = Some r → StoreInv.closes sid r ev = false →
  transports (step ev st).2 !! sid = Some r.
Proof.
  intros Hwf Hfresh Hk Hev.
  pose proof (wf_filed _ _ Hwf) as Hf.
  destruct (step_shape ev st Hf)
    as [-> | [(r' & Hlink & Hst) | (req & config & -> & Hh & Hi & Hc)]]; [done | |].
  - rewrite Hst in Hfresh |- *. rewrite onclose_uuid_calls in Hfresh.
    destruct (onclose_cases r' st) as [-> | (t & k & Hr' & Hs' & ->)]; [done |].
    cbn. rewrite lookup_delete_ne; [done |]. intros ->.
    assert (r' = r) as -> by by eapply entry_holder.
    destruct Hlink as [-> | (req & sid' & -> & Hh & Hk')]; cbn in Hev.
    + by rewrite bool_decide_eq_true_2 in Hev.
    + destruct (Hf _ _ Hk') as (t' & Hr'' & Hs'').
      assert (sid' = sid) as -> by congruence.
      by rewrite bool_decide_eq_true_2 in Hev.
  - cbn [Mux.step] in Hfresh |- *.
    pose proof (post_new_state req st config Hh Hi Hc) as Hst.
    destruct (getMcpClient url_parses config (store st)) as [[e | c] cs'].
    { by rewrite Hst. }
    destruct Hst as [-> | Hst]; [done |]. rewrite Hst in Hfresh |- *.
    cbn [transports uuid_calls Mux.opened] in Hfresh |- *.
    destruct (truthy (JStr (randomUUID (uuid_calls st)))); [| done].
    rewrite lookup_insert_ne; [done |]. intros Heq.
    destruct (Hf _ _ Hk) as (t & Hr & Hs).
    destruct (assigned_drawn _ _ _ _ _ Hwf Hr Hs) as (i & Hi' & ->).
    apply (fresh_upto_inj _ _ _ _ Hfresh) in Heq; lia.
Qed.

Lemma run_keeps_entry evs st resps st' sid r :
  wf st → run evs st = (resps, st') →
  fresh_upto randomUUID (uuid_calls st') →
  transports st !! sid = Some r →
  (∀ ev, ev ∈ evs → StoreInv.closes sid r ev = false) →
  transports st' !! sid = Some r.
Proof.
  revert st resps st'. induction evs as [| ev evs IH];
    intros st resps st' Hwf Hrun Hfresh Hk Hevs.
  - cbn in Hrun. by injection Hrun as _ <-.
  - cbn [Mux.run] in Hrun. destruct (step ev st) as [resp st1] eqn:Hs.
    destruct (run evs st1) as [resps1 st2] eqn:Hr. injection Hrun as _ <-.
    pose proof (step_wf ev st Hwf) as Hwf1. rewrite Hs in Hwf1.
    destruct (run_created _ _ _ _ _ _ _ _ Hwf1 Hr) as (_ & Hle & _).
    eapply (IH st1); [done | exact Hr | done | | ].
    + pose proof (step_keeps_entry ev st sid r Hwf) as H. rewrite Hs in H.
      apply H; [| done |].
      * by eapply fresh_upto_le.
      * apply Hevs. by left.
    + intros ev' Hin. apply Hevs. by right.
Qed.

(** X19: a session can be used from the moment it is announced until it
    is closed.  When a POST in a reachable state is answered with a
    session identifier, then after any further events, none of which is
    a DELETE presenting the identifier or the closure of the session's
    transport, the identifier is still filed, and every POST or GET
    presenting it is handed to the transport of that session and leaves
    the state as it is (a POST whose query cannot be logged throws
    first, and one during which the SDK call throws is answered 500);
    the generator is assumed not to have repeated itself. *)
Theorem announced_session_is_routable
    cs evs resps st0 req0 r sid st evs' resps' st' :
  run evs (init cs) = (resps, st0) →
  post req0 st0 = (Handled r (Some sid), st) →
  sid ≠ "" →
  run evs' st = (resps', st') →
  fresh_upto randomUUID (uuid_calls st') →
  (∀ ev, ev ∈ evs' → StoreInv.closes sid r ev = false) →
  transports st' !! sid = Some r
  ∧ ∀ req, session_header req = Some sid →
      get_stream req st' = (Handled r None, st')
      ∧ post req st'
        = match parseConfigFromQuery parse_json (req_query req) with
          | inr _ => (match admission req with
                      | Threw => internal_error
                      | _ => Handled r None
                      end, st')
          | inl e => (Uncaught e, st')
          end.
Proof.
  intros Hrun0 Hpost Hne Hrun Hfresh Hevs.
  pose proof (run_wf _ _ _ _ _ _ _ _ Hrun0) as Hwf0.
  assert (wf st ∧ transports st !! sid = Some r) as [Hwf Hk].
  { destruct (post_cases url_parses parse_json randomUUID req0 st0
                (wf_filed _ _ Hwf0)) as [[_ Hcr] | (config & Hh & Hi & Hc)].
    { rewrite Hpost in Hcr. discriminate Hcr. }
    rewrite (post_new _ _ _ _ _ _ Hh Hi Hc) in Hpost.
    destruct (createMcpServer _ _ _) as [[e | c] cs0]; [discriminate Hpost |].
    destruct (admission req0); try discriminate Hpost.
    injection Hpost as <- <- <-. split; [by apply wf_opened |].
    unfold Mux.opened. cbn [transports]. apply truthy_str in Hne.
    rewrite Hne. apply lookup_insert_eq. }
  assert (transports st' !! sid = Some r) as Hk'
    by (eapply run_keeps_entry; done).
  split; [exact Hk' |]. intros req Hh.
  destruct (run_created _ _ _ _ _ _ _ _ Hwf Hrun) as (Hwf' & _).
  destruct (routed_to_entry url_parses parse_json randomUUID req st' sid r
              (wf_filed _ _ Hwf') Hh Hne Hk') as [Hp Hg].
  by split.
Qed.

(** X20: the end of a session.  In a reachable state, a DELETE for a
    live session whose transport closes removes its entry and nothing
    else about the transports; from then on a POST with the stale
    identifier gets the -32000 rejection (unless logging its query
    throws first), and a GET or another DELETE gets the plain 400, none
    of them changing the state. *)
Theorem deleted_session_is_gone cs evs resps st req sid r :
  (∀ n, is_uuid (randomUUID n) = true) →
  run evs (init cs) = (resps, st) →
  session_header req = Some sid →
  transports st !! sid = Some r → close_fails r = false →
  ∃ st1,
    delete_session req st = (Handled r None, st1)
    ∧ transports st1 = delete sid (transports st)
    ∧ heap st1 = heap st
    ∧ post req st1
      = match parseConfigFromQuery parse_json (req_query req) with
        | inr _ => (bad_request, st1)
        | inl e => (Uncaught e, st1)
        end
    ∧ get_stream req st1 = (PlainText 400 "Invalid or missing session ID", st1)
    ∧ delete_session req st1
      = (PlainText 400 "Invalid or missing session ID", st1).
Proof.
  intros Hshape Hrun Hh Hk Hc. pose proof (run_wf _ _ _ _ _ _ _ _ Hrun) as Hwf.
  destruct (wf_filed _ _ Hwf _ _ Hk) as (t & Hr & Hs).
  destruct (assigned_drawn _ _ _ _ _ Hwf Hr Hs) as (i & _ & Hsid).
  assert (is_uuid sid = true) as Hu by (rewrite Hsid; apply Hshape).
  pose proof (is_uuid_nonempty _ Hu) as Hne.
  pose proof (is_uuid_not_inherited _ Hu) as Hni.
  exists (onclose r st).
  assert (transports (onclose r st) = delete sid (transports st)) as Ht.
  { unfold onclose. rewrite Hr, Hs, (table_get_entry _ _ _ Hk).
    apply truthy_str in Hne. by rewrite Hne. }
  assert (transports (onclose r st) !! sid = None) as Hgone
    by (rewrite Ht; apply lookup_delete_eq).
  split; [by apply (delete_live_session _ _ _ sid) |]. split; [done |].
  split; [apply onclose_heap |].
  split; [by apply (post_unknown_header _ _ _ _ _ sid) |].
  split; [by apply (get_unknown_header _ _ sid)
         | by apply (delete_unknown _ _ _ sid)].
Qed.

End MuxExtras.

(** ** Closed instances of the properties above *)

Lemma query_config_resolution_witness :
  parseConfigFromQuery (fun _ => None) Demo.tenant_query
  = inr (JObj [("AXYS_API_HOST", JStr "string"); ("MCP_KEY", JStr "k2")])
  ∧ createMcpServer (fun _ => true)
      (JObj [("AXYS_API_HOST", JStr "https://tenant.example");
             ("MCP_KEY", JUndefined)])
      Sample.with_default
    = (inr (Some Sample.tenant), Sample.with_default)
  ∧ parseConfigFromQuery (fun _ => None) (JObj [("config", JStr "not json")])
    = inr JUndefined.
Proof.
  split; [| split].
  - exact (proj1 (query_config_resolution (fun _ => true) (fun _ => None)
                    Demo.tenant_query Sample.bare) eq_refl).
  - exact (proj1 (proj2 (query_config_resolution (fun _ => true) (fun _ => None)
                           Demo.host_only_query Sample.with_default))
                 eq_refl eq_refl).
  - apply (proj2 (proj2 (query_config_resolution (fun _ => true) (fun _ => None)
                           (JObj [("config", JStr "not json")])
                           Sample.with_default)));
      reflexivity.
Defined.


Lemma startup_bindings_witness :
  ∃ c, Some (mkClient (JStr DEFAULT_API_HOST) (JStr "k1")) = Some c
       ∧ mcpKey c = JStr "k1"
       ∧ truthy (mcpKey c) = true
       ∧ StoreInv.host_ok (fun _ => true) c.
Proof.
  apply (proj1 (startup_bindings (fun _ => true) Demo.forced_stdio)
               (Some (mkClient (JStr DEFAULT_API_HOST) (JStr "k1")))).
  reflexivity.
Defined.

Lemma only_mcp_errors_escape_witness :
  (∃ code message,
     McpError InternalError
       "Error executing ai_search_structured: No response received from GPT MCP API"
     = McpError code message)
  ∧ ((∃ code message, not_primitive = McpError code message)
     ∨ (not_primitive = not_primitive
        ∧ ∃ c req v, Demo.raising c req = inl (Raised v) ∧ to_string v = None)).
Proof.
  split.
  - apply (proj2 (only_mcp_errors_escape Demo.silent_net Demo.render
                    (Some Sample.tenant) "ai_search_structured" Demo.search_args
                    _)).
    reflexivity.
  - apply (proj1 (only_mcp_errors_escape Demo.silent_net Demo.render
                    (Some Sample.tenant) "ai_search_structured" Demo.search_args
                    not_primitive) Demo.raising).
    reflexivity.
Defined.

Lemma at_most_one_upstream_request_witness :
  calls (callTool Demo.answering Demo.render None "ai_search_structured"
           Demo.search_args) = []
  ∧ calls (callTool Demo.answering Demo.render (Some Sample.tenant)
             "validate_connection" JUndefined)
    = [mkRequest (JStr "test") structured None None].
Proof.
  split.
  - apply (proj1 (proj2 (at_most_one_upstream_request Demo.answering Demo.render
                           None "ai_search_structured" Demo.search_args))).
    reflexivity.
  - apply (proj2 (proj2 (at_most_one_upstream_request Demo.answering Demo.render
                           (Some Sample.tenant) "validate_connection" JUndefined))
                 Sample.tenant); reflexivity.
Defined.

Lemma search_returns_serialized_answer_witness :
  callTool Demo.answering Demo.render (Some Sample.tenant)
    "ai_search_structured" Demo.search_args
  = mkRun [mkRequest (JStr "manuals") structured None None]
          (inr (TextContent (Demo.render (JStr "hit")))).
Proof.
  apply (proj1 (search_returns_serialized_answer Demo.answering Demo.render
                  Sample.tenant Demo.search_args (JStr "hit") eq_refl)).
  reflexivity.
Defined.

Lemma smithery_guards_unconditional_witness :
  Smithery.callTool Demo.answering Demo.render Sample.tenant
    "ai_search_unstructured" (JObj [("query", JStr "")])
  = throw (McpError InvalidParams "query is required")
  ∧ Smithery.callTool Demo.answering Demo.render Sample.tenant
      "list_indices" JUndefined
    = throw (McpError MethodNotFound "Unknown tool: list_indices").
Proof.
  split.
  - apply (proj1 (smithery_guards_unconditional Demo.answering Demo.render
                    Sample.tenant "ai_search_unstructured"
                    (JObj [("query", JStr "")])));
      [right; reflexivity | reflexivity].
  - apply (proj2 (smithery_guards_unconditional Demo.answering Demo.render
                    Sample.tenant "list_indices" JUndefined)); discriminate.
Defined.

Lemma registry_matches_dispatch_witness :
  (result (callTool (Axios.client_post Demo.silent_net) Demo.render
             (Some Sample.tenant) (Registry.tool_name Demo.first_tool) JUndefined)
   = inl (McpError InvalidParams "query is required")
   ↔ ∃ k, k ∈ Registry.tool_required Demo.first_tool
          ∧ truthy (get JUndefined k) = false)
  ∧ result (callTool (Axios.client_post Demo.silent_net) Demo.render
              (Some Sample.tenant) "list_indices" JUndefined)
    = inl (McpError MethodNotFound "Unknown tool: list_indices").
Proof.
  destruct (registry_matches_dispatch Demo.silent_net Demo.render Sample.tenant
              JUndefined) as [Hlisted Hunlisted].
  split.
  - apply (Hlisted Demo.first_tool). apply list_elem_of_here.
  - apply (Hunlisted "list_indices"). cbn.
    rewrite !elem_of_cons, elem_of_nil.
    intros [H | [H | [H | []]]]; discriminate H.
Defined.

Lemma network_failure_is_internal_error_witness :
  ∃ m, Axios.handleError (Axios.mkError None true "timeout of 180000ms exceeded")
       = JsError m
       ∧ result (callTool (Axios.client_post Demo.silent_net) Demo.render
                   (Some Sample.tenant) "ai_search_structured" Demo.search_args)
         = inl (McpError InternalError
                  ("Error executing " ++ "ai_search_structured" ++ ": " ++ m))
       ∧ m = "No response received from GPT MCP API".
Proof.
  destruct (network_failure_is_internal_error Demo.silent_net Demo.render
              Sample.tenant "ai_search_structured" Demo.search_args
              (Axios.mkError None true "timeout of 180000ms exceeded"))
    as (m & Hm & Hres & Hnone & _).
  - left. reflexivity.
  - reflexivity.
  - intros req. reflexivity.
  - exists m. split; [exact Hm |]. split; [exact Hres |].
    apply Hnone; reflexivity.
Defined.

Lemma rejections_leave_state_witness :
  (Sample.post (Demo.with_header "no-such-session") (init Sample.bare)).2
  = init Sample.bare
  ∧ transports (Sample.post (mkReq None true Demo.tenant_query Threw)
                            (init Sample.with_default)).2
    = ∅
  ∧ mcpClients (store (Sample.post (mkReq None true Demo.tenant_query Threw)
                                   (init Sample.with_default)).2)
    ≠ ∅.
Proof.
  split; [| split].
  - apply (proj1 (rejections_leave_state (fun _ => true) (fun _ => None)
                    Sample.uuid (fun _ => false)
                    (POST (Demo.with_header "no-such-session")) (init Sample.bare)
                    _ _ (surjective_pairing _))).
    left. reflexivity.
  - apply (proj1 (proj2 (rejections_leave_state (fun _ => true) (fun _ => None)
                    Sample.uuid (fun _ => false)
                    (POST (mkReq None true Demo.tenant_query Threw))
                    (init Sample.with_default)
                    _ _ (surjective_pairing _)))).
    reflexivity.
  - intros H.
    assert (mcpClients (store (Sample.post (mkReq None true Demo.tenant_query Threw)
                                 (init Sample.with_default)).2)
            !! "https://directory.axys.ai:k2"
            = Some (mkClient (JStr DEFAULT_API_HOST) (JStr "k2"))) as Hin
      by (vm_compute; reflexivity).
    rewrite H in Hin. discriminate Hin.
Defined.

Lemma sessions_keep_identity_witness :
  heap (Sample.run (fun _ => false) [POST Sample.open_session]
          (init Sample.bare)).2
  `prefix_of`
  heap (Sample.run (fun _ => false)
          [DELETE (Demo.with_header (Sample.uuid 0)); POST Sample.open_session]
          (Sample.run (fun _ => false) [POST Sample.open_session]
             (init Sample.bare)).2).2.
Proof.
  apply (sessions_keep_identity (fun _ => true) (fun _ => None) Sample.uuid
           (fun _ => false) Sample.bare
           [POST Sample.open_session]
           [DELETE (Demo.with_header (Sample.uuid 0)); POST Sample.open_session]
           _ _ _ _ (surjective_pairing _) (surjective_pairing _)).
Defined.

Lemma run_keeps_clients_witness :
  defaultMcpClient
    (store (Sample.run (fun _ => false)
              [POST (mkReq None true Demo.tenant_query Answered)]
              (init Sample.with_default)).2)
  = Some Sample.tenant.
Proof.
  apply (proj1 (run_keeps_clients (fun _ => true) (fun _ => None) Sample.uuid
                  (fun _ => false) Sample.with_default
                  [POST (mkReq None true Demo.tenant_query Answered)]
                  _ _ (surjective_pairing _))).
Defined.

Lemma hosts_always_acceptable_witness :
  StoreInv.store_ok (fun _ => true)
    (store (Sample.run (fun _ => false)
              [POST (mkReq None true Demo.tenant_query Answered)]
              (init (mkStore ∅
                       (startHttpServer_client (fun _ => true)
                          (mkEnv (Some "string") (Some "k1")))))).2).
Proof.
  apply (proj1 (hosts_always_acceptable (fun _ => true) (fun _ => None)
                  Sample.uuid (fun _ => false)
                  (mkEnv (Some "string") (Some "k1"))
                  [POST (mkReq None true Demo.tenant_query Answered)]
                  _ _ (surjective_pairing _))).
Defined.

Lemma table_keys_were_drawn_witness :
  ∃ i t,
    (i < uuid_calls (Sample.run (fun _ => false)
                       [POST Sample.open_session; POST Sample.open_session]
                       (init Sample.bare)).2)%nat
    ∧ Sample.uuid 1 = Sample.uuid i
    ∧ heap (Sample.run (fun _ => false)
              [POST Sample.open_session; POST Sample.open_session]
              (init Sample.bare)).2 !! 1%nat = Some t
    ∧ sessionId t = Some (Sample.uuid 1).
Proof.
  apply (table_keys_were_drawn (fun _ => true) (fun _ => None) Sample.uuid
           (fun _ => false) Sample.bare
           [POST Sample.open_session; POST Sample.open_session]
           _ _ (Sample.uuid 1) 1%nat (surjective_pairing _)).
  vm_compute. reflexivity.
Defined.

Lemma one_session_per_opening_request_witness :
  List.length (heap (Demo.run (fun _ => false) Demo.mixed_run
                       (init Sample.bare)).2) = 3%nat
  ∧ uuid_calls (Demo.run (fun _ => false) Demo.mixed_run (init Sample.bare)).2
    = 2%nat
  ∧ List.length (created (Demo.run (fun _ => false) Demo.mixed_run
                            (init Sample.bare)).1) = 1%nat.
Proof.
  destruct (one_session_per_opening_request (fun _ => true) Demo.decode
              Sample.uuid (fun _ => false) Sample.bare Demo.mixed_run
              _ _ (surjective_pairing _)) as (Hheap & Hdrawn & Hannounced).
  split; [exact Hheap |]. split; [exact Hdrawn | exact Hannounced].
Defined.

Lemma announced_session_is_routable_witness :
  transports
    (Sample.run (fun _ => false)
       [POST Sample.open_session;
        DELETE (Demo.with_header (Sample.uuid 1));
        GET (Demo.with_header (Sample.uuid 0));
        Closed 1]
       (Sample.post Sample.open_session (init Sample.bare)).2).2
  !! Sample.uuid 0 = Some 0%nat
  ∧ get_stream (Demo.with_header (Sample.uuid 0))
      (Sample.run (fun _ => false)
         [POST Sample.open_session;
          DELETE (Demo.with_header (Sample.uuid 1));
          GET (Demo.with_header (Sample.uuid 0));
          Closed 1]
         (Sample.post Sample.open_session (init Sample.bare)).2).2
    = (Handled 0 None,
       (Sample.run (fun _ => false)
          [POST Sample.open_session;
           DELETE (Demo.with_header (Sample.uuid 1));
           GET (Demo.with_header (Sample.uuid 0));
           Closed 1]
          (Sample.post Sample.open_session (init Sample.bare)).2).2).
Proof.
  destruct (announced_session_is_routable (fun _ => true) (fun _ => None)
              Sample.uuid (fun _ => false) Sample.bare [] [] (init Sample.bare)
              Sample.open_session 0%nat (Sample.uuid 0)
              (Sample.post Sample.open_session (init Sample.bare)).2
              [POST Sample.open_session;
               DELETE (Demo.with_header (Sample.uuid 1));
               GET (Demo.with_header (Sample.uuid 0));
               Closed 1]
              _ _ eq_refl eq_refl ltac:(discriminate) (surjective_pairing _))
    as [Hfiled Hrouted].
  - unfold fresh_upto. apply (bool_decide_unpack _). vm_compute. exact I.
  - intros ev Hin. rewrite !elem_of_cons, elem_of_nil in Hin.
    destruct Hin as [-> | [-> | [-> | [-> | []]]]]; reflexivity.
  - split; [exact Hfiled |].
    exact (proj1 (Hrouted (Demo.with_header (Sample.uuid 0)) eq_refl)).
Defined.

Lemma deleted_session_is_gone_witness :
  ∃ st1,
    Mux.delete_session (fun _ => false) (Demo.with_header (Demo.fixed_uuid 0))
      (Mux.post (fun _ => true) (fun _ => None) Demo.fixed_uuid
         Sample.open_session (init Sample.bare)).2
    = (Handled 0 None, st1)
    ∧ transports st1 = ∅
    ∧ Mux.post (fun _ => true) (fun _ => None) Demo.fixed_uuid
        (Demo.with_header (Demo.fixed_uuid 0)) st1
      = (bad_request, st1).
Proof.
  destruct (deleted_session_is_gone (fun _ => true) (fun _ => None)
              Demo.fixed_uuid (fun _ => false) Sample.bare
              [POST Sample.open_session]
              [(Mux.post (fun _ => true) (fun _ => None) Demo.fixed_uuid
                  Sample.open_session (init Sample.bare)).1]
              (Mux.post (fun _ => true) (fun _ => None) Demo.fixed_uuid
                 Sample.open_session (init Sample.bare)).2
              (Demo.with_header (Demo.fixed_uuid 0)) (Demo.fixed_uuid 0) 0%nat)
    as (st1 & Hdel & Htab & _ & Hpost & _).
  - intros n. reflexivity.
  - reflexivity.
  - reflexivity.
  - vm_compute. reflexivity.
  - reflexivity.
  - exists st1. split; [exact Hdel |]. split; [| exact Hpost].
    rewrite Htab. apply map_eq. intros k. rewrite lookup_empty.
    destruct (decide (k = Demo.fixed_uuid 0)) as [-> | Hne].
    + apply lookup_delete_eq.
    + rewrite lookup_delete_ne by done. cbn.
      rewrite lookup_insert_ne by done. apply lookup_empty.
Defined.
